(** * Typed expression builder of the tensor IR: [src/tir/op/op.cc]

    A shallow embedding of the operator constructors of [tir/op/op.cc]
    (type promotion, numeric limits, cast, min/max, shifts, the
    floating-point classification predicates, the rounding builders and
    the min/max reductions) together with the properties established
    about them.

    [op.cc] is a client of several headers that are not part of the
    sources at hand ([runtime/data_type.h], [tir/expr.h], [tir/op.h],
    [arith/const_fold.h], [target/datatype/registry.h]).  The data they
    declare is modelled after the data model of the specification; the
    functions they define are taken as variables of the section
    [Builder], with their contracts as hypotheses where a property
    depends on them.  Module [Ref] instantiates them for evaluation. *)

From Stdlib Require Import ZArith Bool List String Lia.
From Stdlib Require Import SpecFloat.
Import ListNotations.
Set Warnings "-register-all".
Local Open Scope string_scope.
Local Open Scope Z_scope.

(* ================================================================= *)
(** ** Fatal checks

    [ICHECK], [ICHECK_EQ] and [LOG(FATAL)] abort the construction call.
    A builder therefore returns [Ok e] or [Fatal]. *)

Inductive result (A : Type) : Type :=
| Ok (a : A)
| Fatal.
Arguments Ok {A} a.
Arguments Fatal {A}.

Definition bind {A B : Type} (r : result A) (k : A -> result B) : result B :=
  match r with
  | Ok a => k a
  | Fatal => Fatal
  end.

Notation "x <- c1 ;; c2" := (bind c1 (fun x => c2))
  (at level 61, c1 at next level, right associativity).
Notation "' pat <- c1 ;; c2" := (bind c1 (fun x => match x with pat => c2 end))
  (at level 61, pat pattern, c1 at next level, right associativity).

(** [ICHECK(c)]: continue when [c] holds, abort otherwise. *)
Definition ICHECK (c : bool) : result unit :=
  if c then Ok tt else Fatal.

(* ================================================================= *)
(** ** Machine integers

    Literal payloads are [int64_t]; [max_value] also computes in
    [uint64_t].  Both are integers of [Z] with the wrap-around written
    out. *)

Definition to_uint64 (z : Z) : Z := z mod 2 ^ 64.
Definition to_int64 (z : Z) : Z := (z + 2 ^ 63) mod 2 ^ 64 - 2 ^ 63.

Definition INT64_MAX : Z := 2 ^ 63 - 1.
Definition INT64_MIN : Z := - 2 ^ 63.
Definition UINT64_MAX : Z := 2 ^ 64 - 1.

(* ================================================================= *)
(** ** Doubles

    Float literals carry a [double] payload: an IEEE 754 binary64 value,
    here a [spec_float] at precision 53 and maximal exponent 1024. *)

Definition double : Type := spec_float.

Definition dbl_finite (s : bool) (m : positive) (e : Z) : double := S754_finite s m e.

(** [std::numeric_limits<double>::max()] = (2^53 - 1) * 2^971. *)
Definition DBL_MAX : double := dbl_finite false (2 ^ 53 - 1) 971.
(** [std::numeric_limits<float>::max()] widened to double
    = (2^24 - 1) * 2^104 = ((2^24 - 1) * 2^29) * 2^75. *)
Definition FLT_MAX : double := dbl_finite false ((2 ^ 24 - 1) * 2 ^ 29) 75.
(** The literal [65504.0] = 2047 * 2^5 = (2047 * 2^42) * 2^-37. *)
Definition dbl_65504 : double := dbl_finite false (2047 * 2 ^ 42) (-37).
Definition dbl_infinity : double := S754_infinity false.

Definition dbl_neg (x : double) : double := SFopp x.
Definition std_fabs (x : double) : double := SFabs x.
Definition std_isnan (x : double) : bool :=
  match x with
  | S754_nan => true
  | _ => false
  end.
(** [x < 0] on doubles. *)
Definition dbl_ltz (x : double) : bool := SFltb x (S754_zero false).

(** The integer a finite double denotes, scaled by [2^k]:
    [dbl_scaled k x = Some n] when [x = n / 2^k] exactly. *)
Definition dbl_scaled (k : Z) (x : double) : option Z :=
  match x with
  | S754_zero _ => Some 0
  | S754_finite s m e =>
      if 0 <=? e + k
      then Some ((if s then -1 else 1) * Z.pos m * 2 ^ (e + k))
      else None
  | _ => None
  end.

(** Rounding to an integral double.  [q] is the integer result and [s]
    the sign of the argument (it is the sign of a zero result). *)
Definition dbl_of_integral (s : bool) (q : Z) : double :=
  binary_normalize 53 1024 q 0 s.

Definition signed_mantissa (s : bool) (m : positive) : Z :=
  if s then Z.neg m else Z.pos m.

Definition std_floor (x : double) : double :=
  match x with
  | S754_finite s m e =>
      if 0 <=? e then x
      else dbl_of_integral s (signed_mantissa s m / 2 ^ (- e))
  | _ => x
  end.

Definition std_ceil (x : double) : double :=
  match x with
  | S754_finite s m e =>
      if 0 <=? e then x
      else dbl_of_integral s (- ((- signed_mantissa s m) / 2 ^ (- e)))
  | _ => x
  end.

(** [std::nearbyint] in the default rounding mode (to nearest, ties to
    even). *)
Definition std_nearbyint (x : double) : double :=
  match x with
  | S754_finite s m e =>
      if 0 <=? e then x
      else
        let d := 2 ^ (- e) in
        let q := signed_mantissa s m / d in
        let r := signed_mantissa s m mod d in
        let q' :=
          if 2 * r <? d then q
          else if d <? 2 * r then q + 1
          else if Z.even q then q else q + 1 in
        dbl_of_integral s q'
  | _ => x
  end.

(* ================================================================= *)
(** ** Numeric-type descriptor *)

(** Modelled from the spec: the kind of a numeric-type descriptor
    ([runtime/data_type.h] is not among the sources), "kind:
    Int|UInt|Float|Bool|Handle|Custom(code)".  It is what
    [DataType::code()] returns; a custom code is a code outside the
    builtin set. *)
Inductive TypeCode : Type :=
| kInt
| kUInt
| kFloat
| kBool
| kHandle
| kCustom (c : Z).

(** Modelled from the spec: the numeric-type descriptor
    "{kind, bits, lanes}" with structural equality. *)
Record DataType : Type := mkDataType {
  code : TypeCode;
  bits : Z;
  lanes : Z
}.

Definition TypeCode_eqb (c1 c2 : TypeCode) : bool :=
  match c1, c2 with
  | kInt, kInt | kUInt, kUInt | kFloat, kFloat
  | kBool, kBool | kHandle, kHandle => true
  | kCustom a, kCustom b => a =? b
  | _, _ => false
  end.

Definition DataType_eqb (t1 t2 : DataType) : bool :=
  TypeCode_eqb (code t1) (code t2) && (bits t1 =? bits t2) && (lanes t1 =? lanes t2).

Definition is_int (t : DataType) : bool :=
  match code t with kInt => true | _ => false end.
Definition is_uint (t : DataType) : bool :=
  match code t with kUInt => true | _ => false end.
Definition is_float (t : DataType) : bool :=
  match code t with kFloat => true | _ => false end.
Definition is_bool (t : DataType) : bool :=
  match code t with kBool => true | _ => false end.
Definition is_handle (t : DataType) : bool :=
  match code t with kHandle => true | _ => false end.
Definition is_custom (c : TypeCode) : bool :=
  match c with kCustom _ => true | _ => false end.

Definition Int (b l : Z) : DataType := mkDataType kInt b l.
Definition UInt (b l : Z) : DataType := mkDataType kUInt b l.
Definition Float (b l : Z) : DataType := mkDataType kFloat b l.
Definition Bool (l : Z) : DataType := mkDataType kBool 1 l.
Definition Handle : DataType := mkDataType kHandle 64 1.

Definition with_lanes (t : DataType) (l : Z) : DataType :=
  mkDataType (code t) (bits t) l.
Definition element_of (t : DataType) : DataType := with_lanes t 1.

(* ================================================================= *)
(** ** Expressions *)

(** Operator tags of the binary expression nodes ([tir::Add], ...,
    [tir::Or]); they also index [arith::TryConstFold<Op>]. *)
Inductive BinOp : Type :=
| Add | Sub | Mul | Div | Mod | FloorDiv | FloorMod | Min | Max
| EQ | NE | LT | LE | GT | GE | And | Or.

(** A reduction axis.  Reduction domains are carried through the
    builders untouched. *)
Record IterVar : Type := mkIterVar {
  iter_name : string;
  iter_min : Z;
  iter_extent : Z
}.

(** Modelled from the spec: the expression variants of the data model
    ([tir/expr.h] is not among the sources).  A callee is named by its
    registered opcode string.  Node constructors are plain constructors:
    an expression is immutable and compared structurally. *)
Inductive PrimExpr : Type :=
| IntImm (t : DataType) (value : Z)
| FloatImm (t : DataType) (value : double)
| Var (name : string) (t : DataType)
| Cast (t : DataType) (value : PrimExpr)
| Broadcast (value : PrimExpr) (l : Z)
| BinaryOp (op : BinOp) (a b : PrimExpr)
| Not (a : PrimExpr)
| Select (condition true_value false_value : PrimExpr)
| Call (t : DataType) (op : string) (args : list PrimExpr)
| Reduce (combiner : CommReducer) (source : list PrimExpr)
         (axis : list IterVar) (condition : PrimExpr)
         (value_index : Z) (init : list PrimExpr)
with CommReducer : Type :=
| mkCommReducer (lhs rhs result identity_element : list PrimExpr).

Definition is_comparison (op : BinOp) : bool :=
  match op with
  | EQ | NE | LT | LE | GT | GE | And | Or => true
  | _ => false
  end.

(** [e.dtype()]: the type every node records at construction.
    Comparisons and logical nodes are boolean with the lanes of their
    operand, a broadcast has its operand's type at the new lane count,
    arithmetic and select nodes have the type of their (first value)
    operand, a reduction the type of the selected source. *)
Fixpoint dtype (e : PrimExpr) : DataType :=
  match e with
  | IntImm t _ => t
  | FloatImm t _ => t
  | Var _ t => t
  | Cast t _ => t
  | Broadcast v l => with_lanes (dtype v) l
  | BinaryOp op a _ =>
      if is_comparison op then Bool (lanes (dtype a)) else dtype a
  | Not a => Bool (lanes (dtype a))
  | Select _ tv _ => dtype tv
  | Call t _ _ => t
  | Reduce _ source _ _ value_index _ =>
      (fix nth_dtype (l : list PrimExpr) (n : nat) : DataType :=
         match l, n with
         | [], _ => Handle
         | s :: _, O => dtype s
         | _ :: l', S n' => nth_dtype l' n'
         end) source (Z.to_nat value_index)
  end.

(** [e.as<IntImmNode>()]: the payload when the node is an integer
    literal. *)
Definition as_IntImm (e : PrimExpr) : option Z :=
  match e with
  | IntImm _ v => Some v
  | _ => None
  end.

Definition identity_elements (e : PrimExpr) : option (list PrimExpr) :=
  match e with
  | Reduce (mkCommReducer _ _ _ ids) _ _ _ _ _ => Some ids
  | _ => None
  end.

(* ================================================================= *)
(** ** A reference instantiation of the collaborators

    Concrete collaborators to evaluate the builders with: a registry
    given by its list of entries, constant construction, a folding
    engine for the logical operators, the infinity sentinels and the
    index-type test. *)

Module Ref.

(** A registry entry: a custom code and, possibly, its minimum
    callback. *)
Definition entry : Type := (Z * option (Z -> result PrimExpr))%type.

Fixpoint lookup (c : Z) (entries : list entry) : option entry :=
  match entries with
  | [] => None
  | (c', f) :: rest => if c =? c' then Some (c', f) else lookup c rest
  end.

(** Only custom codes can be registered. *)
Definition GetTypeRegistered (entries : list entry) (c : TypeCode) : bool :=
  match c with
  | kCustom n =>
      match lookup n entries with
      | Some _ => true
      | None => false
      end
  | _ => false
  end.

Definition GetMinFunc (entries : list entry) (c : TypeCode)
  : option (Z -> result PrimExpr) :=
  match c with
  | kCustom n =>
      match lookup n entries with
      | Some (_, f) => f
      | None => None
      end
  | _ => None
  end.

(** [static_cast<double>] of an integer (round to nearest even). *)
Definition double_of_Z (z : Z) : double := binary_normalize 53 1024 z 0 false.

(** [static_cast<int64_t>] of a double: truncation toward zero. *)
Definition Z_of_double (d : double) : Z :=
  match d with
  | S754_finite s m e =>
      to_int64 (if 0 <=? e then signed_mantissa s m * 2 ^ e
                else Z.quot (signed_mantissa s m) (2 ^ (- e)))
  | _ => 0
  end.

(** Scalar constants: an integer literal for the integer, unsigned
    and boolean kinds (a two-word call for an unsigned value beyond
    [int64_t]), a float literal for the float and custom kinds. *)
Definition MakeConstScalar (t : DataType) (value : Z) : result PrimExpr :=
  if is_int t then Ok (IntImm t (to_int64 value))
  else if is_uint t || is_bool t then
    let uval := to_uint64 value in
    if uval <=? INT64_MAX then Ok (IntImm t (to_int64 value))
    else
      let mask := 2 ^ 32 - 1 in
      let low := Z.land uval mask in
      let high := Z.shiftr uval 32 in
      Ok (Call t "tir.large_uint_imm"
            [IntImm (UInt 32 1) low; IntImm (UInt 32 1) high])
  else if is_float t || is_custom (code t) then
    Ok (FloatImm t (double_of_Z value))
  else Fatal.

Definition MakeConstScalar_fp (t : DataType) (value : double) : result PrimExpr :=
  if is_int t || is_uint t || is_bool t then Ok (IntImm t (Z_of_double value))
  else if is_float t || is_custom (code t) then Ok (FloatImm t value)
  else Fatal.

Definition make_const (t : DataType) (value : Z) : result PrimExpr :=
  if lanes t =? 1 then MakeConstScalar t value
  else
    e <- MakeConstScalar (element_of t) value ;;
    Ok (Broadcast e (lanes t)).

Definition make_const_fp (t : DataType) (value : double) : result PrimExpr :=
  if lanes t =? 1 then MakeConstScalar_fp t value
  else
    e <- MakeConstScalar_fp (element_of t) value ;;
    Ok (Broadcast e (lanes t)).

Definition make_zero (t : DataType) : result PrimExpr :=
  if is_handle t then
    z <- make_const (UInt 64 1) 0 ;;
    Ok (if DataType_eqb (dtype z) t then z else Call t "tir.reinterpret" [z])
  else make_const t 0.

(** Folds the logical operators on literal operands; "no fold"
    otherwise. *)
Definition TryConstFold (op : BinOp) (a b : PrimExpr) : option PrimExpr :=
  match op with
  | And =>
      match as_IntImm a, as_IntImm b with
      | Some va, _ => if va =? 0 then Some a else Some b
      | None, Some vb => if vb =? 0 then Some b else Some a
      | None, None => None
      end
  | Or =>
      match as_IntImm a, as_IntImm b with
      | Some va, _ => if va =? 0 then Some b else Some a
      | None, Some vb => if vb =? 0 then Some a else Some b
      | None, None => None
      end
  | _ => None
  end.

Definition TryConstFoldNot (a : PrimExpr) : option PrimExpr :=
  match as_IntImm a with
  | Some va => Some (IntImm (Bool 1) (Z.b2z (va =? 0)))
  | None => None
  end.

Definition neg_inf : PrimExpr := Var "neg_inf" Handle.

Definition is_sentinel (n : string) (e : PrimExpr) : bool :=
  match e with
  | Var name t => String.eqb name n && DataType_eqb t Handle
  | _ => false
  end.

Definition is_pos_inf (e : PrimExpr) : bool := is_sentinel "pos_inf" e.
Definition is_neg_inf (e : PrimExpr) : bool := is_sentinel "neg_inf" e.


(** Index types: scalar signed integers of 32 or 64 bits. *)
Definition IsIndexType (t : DataType) : bool :=
  is_int t && (lanes t =? 1) && ((bits t =? 32) || (bits t =? 64)).

(** A registry with two custom codes: 129 with a minimum callback,
    130 without. *)
Definition custom129 (b : Z) : DataType := mkDataType (kCustom 129) b 1.

Definition two_entries : list entry :=
  [ (129, Some (fun b => Ok (FloatImm (custom129 b) (dbl_neg DBL_MAX))));
    (130, None) ].

End Ref.

(* ================================================================= *)
(** ** The builders of [op.cc] *)

Section Builder.

(** *** Collaborators

    What [op.cc] calls and other files define enters as a variable.

    The Custom-Type Registry ([datatype::Registry::Global()] and
    [datatype::GetMinFunc]): which codes are registered, and the
    minimum callback of a code, if one is registered. *)
Variable GetTypeRegistered : TypeCode -> bool.
Variable GetMinFunc : TypeCode -> option (Z -> result PrimExpr).

(** Constant construction ([make_const] and [make_zero] of
    [tir/op.h]), from an integral value and from a double. *)
Variable make_const : DataType -> Z -> result PrimExpr.
Variable make_const_fp : DataType -> double -> result PrimExpr.
Variable make_zero : DataType -> result PrimExpr.

(** The Constant-Folding Engine ([arith::TryConstFold<Op>]): a folded
    expression or "no fold". *)
Variable TryConstFold : BinOp -> PrimExpr -> PrimExpr -> option PrimExpr.
Variable TryConstFoldNot : PrimExpr -> option PrimExpr.

(** The infinity sentinels ([arith::is_pos_inf], [arith::is_neg_inf]). *)
Variable is_pos_inf : PrimExpr -> bool.
Variable is_neg_inf : PrimExpr -> bool.

(** The operand types on which index constant propagation applies
    ([arith::IsIndexType], the test of [TVM_INDEX_CONST_PROPAGATION]). *)
Variable IsIndexType : DataType -> bool.

(** [TVM_INDEX_CONST_PROPAGATION(BODY)], a macro of
    [arith/const_fold.h]: it binds [pa] and [pb], the integer-literal
    views of [a] and [b], which [BODY] reads, and runs [BODY] when
    both operand types are index types; which types those are is left
    to [IsIndexType].  [BODY] aborts, returns an expression, or falls
    through ([Ok None]). *)
Definition TVM_INDEX_CONST_PROPAGATION (a b : PrimExpr)
    (BODY : option Z -> option Z -> result (option PrimExpr))
  : result (option PrimExpr) :=
  let pa := as_IntImm a in
  let pb := as_IntImm b in
  let ta := dtype a in
  let tb := dtype b in
  if IsIndexType ta && IsIndexType tb then BODY pa pb else Ok None.

(** *** Casts *)

Definition SimpleCast (t : DataType) (value : PrimExpr) : PrimExpr :=
  if DataType_eqb (dtype value) t then value else Cast t value.

Definition LargeUIntImm (t : DataType) (low high : Z) : result PrimExpr :=
  l <- make_const (UInt 32 1) low ;;
  h <- make_const (UInt 32 1) high ;;
  Ok (Call t "tir.large_uint_imm" [l; h]).

Definition cast (t : DataType) (value : PrimExpr) : result PrimExpr :=
  if DataType_eqb (dtype value) t then Ok value
  else if lanes t =? 1 then
    match value with
    | IntImm _ v => make_const t v
    | FloatImm _ v => make_const_fp t v
    | _ => Ok (Cast t value)
    end
  else if lanes (dtype value) =? 1 then
    let vtype := element_of t in
    value' <-
      (if negb (DataType_eqb (dtype value) vtype) then
         match value with
         | IntImm _ v => make_const vtype v
         | FloatImm _ v => make_const_fp vtype v
         | _ => Ok (Cast vtype value)
         end
       else Ok value) ;;
    Ok (Broadcast value' (lanes t))
  else
    _ <- ICHECK (lanes (dtype value) =? lanes t) ;;
    Ok (Cast t value).

Definition reinterpret (t : DataType) (value : PrimExpr) : result PrimExpr :=
  if DataType_eqb (dtype value) t then Ok value
  else Ok (Call t "tir.reinterpret" [value]).

(** *** Type promotion *)

Definition BinaryOpMatchTypes (lhs rhs : PrimExpr)
  : result (PrimExpr * PrimExpr) :=
  if DataType_eqb (dtype lhs) (dtype rhs) then Ok (lhs, rhs)
  else
    let ltype := dtype lhs in
    let rtype := dtype rhs in
    '(lhs, rhs) <-
      (if (lanes ltype =? 1) && negb (lanes rtype =? 1) then
         Ok (Broadcast lhs (lanes rtype), rhs)
       else if (lanes rtype =? 1) && negb (lanes ltype =? 1) then
         Ok (lhs, Broadcast rhs (lanes ltype))
       else
         _ <- ICHECK (lanes ltype =? lanes rtype) ;;
         Ok (lhs, rhs)) ;;
    if DataType_eqb (dtype lhs) (dtype rhs) then Ok (lhs, rhs)
    else if negb (is_float (dtype lhs)) &&
            (is_float (dtype rhs) || GetTypeRegistered (code (dtype rhs))) then
      lhs' <- cast (dtype rhs) lhs ;;
      Ok (lhs', rhs)
    else if (is_float (dtype lhs) || GetTypeRegistered (code (dtype lhs))) &&
            negb (is_float (dtype rhs)) then
      rhs' <- cast (dtype lhs) rhs ;;
      Ok (lhs, rhs')
    else if (is_int (dtype lhs) && is_int (dtype rhs)) ||
            (is_uint (dtype lhs) && is_uint (dtype rhs)) then
      if bits (dtype lhs) <? bits (dtype rhs) then
        lhs' <- cast (dtype rhs) lhs ;;
        Ok (lhs', rhs)
      else
        rhs' <- cast (dtype lhs) rhs ;;
        Ok (lhs, rhs')
    else if (is_int (dtype lhs) && is_uint (dtype rhs)) ||
            (is_uint (dtype lhs) && is_int (dtype rhs)) then
      let bits := Z.max (bits (dtype lhs)) (bits (dtype rhs)) in
      let lhs' := SimpleCast (Int bits (lanes (dtype lhs))) lhs in
      let rhs' := SimpleCast (Int bits (lanes (dtype rhs))) rhs in
      Ok (lhs', rhs')
    else Fatal.

(** *** Numeric limits *)

Definition max_value (dtype : DataType) : result PrimExpr :=
  _ <- ICHECK (lanes dtype =? 1) ;;
  if is_int dtype then
    if bits dtype =? 64 then Ok (IntImm dtype INT64_MAX)
    else if bits dtype <? 64 then
      let val := 1 in
      let val := to_int64 (to_int64 (Z.shiftl val (bits dtype - 1)) - 1) in
      Ok (IntImm dtype val)
    else Fatal
  else if is_uint dtype then
    if bits dtype =? 64 then make_const dtype UINT64_MAX
    else if bits dtype <? 64 then
      let val := 1 in
      let val := to_uint64 (to_uint64 (Z.shiftl val (to_uint64 (bits dtype))) - 1) in
      Ok (IntImm dtype (to_int64 val))
    else Fatal
  else if is_float dtype then
    if bits dtype =? 64 then Ok (FloatImm dtype DBL_MAX)
    else if bits dtype =? 32 then Ok (FloatImm dtype FLT_MAX)
    else if bits dtype =? 16 then Ok (FloatImm dtype dbl_65504)
    else Fatal
  else Fatal.

Definition min_value (dtype : DataType) : result PrimExpr :=
  _ <- ICHECK (lanes dtype =? 1) ;;
  if GetTypeRegistered (code dtype) then
    match GetMinFunc (code dtype) with
    | None => Fatal
    | Some f => f (bits dtype)
    end
  else if is_int dtype then
    if bits dtype =? 64 then Ok (IntImm dtype INT64_MIN)
    else if bits dtype <? 64 then
      let val := 1 in
      let val := to_int64 (- to_int64 (Z.shiftl val (bits dtype - 1))) in
      Ok (IntImm dtype val)
    else Fatal
  else if is_uint dtype then Ok (IntImm dtype 0)
  else if is_float dtype then
    if bits dtype =? 64 then Ok (FloatImm dtype (dbl_neg DBL_MAX))
    else if bits dtype =? 32 then Ok (FloatImm dtype (dbl_neg FLT_MAX))
    else if bits dtype =? 16 then Ok (FloatImm dtype (dbl_neg dbl_65504))
    else Fatal
  else Fatal.

Definition infinity (dtype : DataType) : result PrimExpr :=
  _ <- ICHECK (lanes dtype =? 1) ;;
  if is_float dtype then
    if bits dtype =? 64 then Ok (FloatImm dtype dbl_infinity)
    else if (bits dtype =? 32) || (bits dtype =? 16) then
      Ok (FloatImm dtype dbl_infinity)
    else Fatal
  else Fatal.

(** *** Binary operators

    The common shape: promote, try to fold, build the node. *)

Definition fold_or_build (op : BinOp) (a b : PrimExpr) : PrimExpr :=
  match TryConstFold op a b with
  | Some ret => ret
  | None => BinaryOp op a b
  end.

Definition promote_fold_build (op : BinOp) (a b : PrimExpr) : result PrimExpr :=
  '(a, b) <- BinaryOpMatchTypes a b ;;
  Ok (fold_or_build op a b).

Definition int_or_uint (t : DataType) : bool := is_int t || is_uint t.

(** One operand signed, the other unsigned. *)
Definition mixed_sign (t1 t2 : DataType) : bool :=
  (is_int t1 && is_uint t2) || (is_uint t1 && is_int t2).

Definition operator_sub (a b : PrimExpr) : result PrimExpr :=
  promote_fold_build Sub a b.

Definition operator_neg (a : PrimExpr) : result PrimExpr :=
  match a with
  | IntImm _ v => Ok (IntImm (dtype a) (to_int64 (- v)))
  | FloatImm _ v => Ok (FloatImm (dtype a) (dbl_neg v))
  | _ => z <- make_zero (dtype a) ;; operator_sub z a
  end.

Definition div (a b : PrimExpr) : result PrimExpr :=
  promote_fold_build Div a b.

Definition truncdiv (a b : PrimExpr) : result PrimExpr :=
  _ <- ICHECK (int_or_uint (dtype a)) ;;
  _ <- ICHECK (int_or_uint (dtype b)) ;;
  div a b.

Definition truncmod (a b : PrimExpr) : result PrimExpr :=
  promote_fold_build Mod a b.

Definition floordiv (a b : PrimExpr) : result PrimExpr :=
  _ <- ICHECK (int_or_uint (dtype a)) ;;
  _ <- ICHECK (int_or_uint (dtype b)) ;;
  promote_fold_build FloorDiv a b.

Definition floormod (a b : PrimExpr) : result PrimExpr :=
  _ <- ICHECK (int_or_uint (dtype a)) ;;
  _ <- ICHECK (int_or_uint (dtype b)) ;;
  promote_fold_build FloorMod a b.


Definition max (a b : PrimExpr) : result PrimExpr :=
  if is_pos_inf a then Ok a
  else if is_neg_inf a then Ok b
  else if is_pos_inf b then Ok b
  else if is_neg_inf b then Ok a
  else promote_fold_build Max a b.

Definition operator_ge (a b : PrimExpr) : result PrimExpr :=
  promote_fold_build GE a b.

Definition operator_eq (a b : PrimExpr) : result PrimExpr :=
  promote_fold_build EQ a b.

Definition operator_and (a b : PrimExpr) : result PrimExpr :=
  _ <- ICHECK (is_bool (dtype a)) ;;
  _ <- ICHECK (is_bool (dtype b)) ;;
  Ok (fold_or_build And a b).

Definition operator_not (a : PrimExpr) : result PrimExpr :=
  _ <- ICHECK (is_bool (dtype a)) ;;
  match TryConstFoldNot a with
  | Some ret => Ok ret
  | None => Ok (Not a)
  end.

(** *** Shifts *)

(** The body shared by [operator>>] and [operator<<]; [sh] is the
    shift of the two literal payloads. *)
Definition shift_body (sh : Z -> Z -> Z) (a b : PrimExpr)
    (pa pb : option Z) : result (option PrimExpr) :=
  let rtype := dtype a in
  _ <- match pb with
       | Some vb => ICHECK ((0 <=? vb) && (vb <? bits rtype))
       | None => Ok tt
       end ;;
  match pa, pb with
  | Some va, Some vb => Ok (Some (IntImm rtype (sh va vb)))
  | _, Some vb => if vb =? 0 then Ok (Some a) else Ok None
  | _, None => Ok None
  end.

Definition operator_shr (a b : PrimExpr) : result PrimExpr :=
  _ <- ICHECK (int_or_uint (dtype a)) ;;
  _ <- ICHECK (int_or_uint (dtype b)) ;;
  '(a, b) <- BinaryOpMatchTypes a b ;;
  r <- TVM_INDEX_CONST_PROPAGATION a b
         (shift_body (fun va vb => Z.shiftr va vb) a b) ;;
  match r with
  | Some ret => Ok ret
  | None => Ok (Call (dtype a) "tir.shift_right" [a; b])
  end.

Definition operator_shl (a b : PrimExpr) : result PrimExpr :=
  _ <- ICHECK (int_or_uint (dtype a)) ;;
  _ <- ICHECK (int_or_uint (dtype b)) ;;
  '(a, b) <- BinaryOpMatchTypes a b ;;
  r <- TVM_INDEX_CONST_PROPAGATION a b
         (shift_body (fun va vb => to_int64 (Z.shiftl va vb)) a b) ;;
  match r with
  | Some ret => Ok ret
  | None => Ok (Call (dtype a) "tir.shift_left" [a; b])
  end.

(** *** abs, isnan, isinf, isfinite *)

Definition abs (x : PrimExpr) : result PrimExpr :=
  if is_int (dtype x) then
    match x with
    | IntImm _ v => Ok (IntImm (dtype x) (to_int64 (Z.abs v)))
    | _ =>
        z <- make_zero (dtype x) ;;
        c <- operator_ge x z ;;
        n <- operator_neg x ;;
        Ok (Select c x n)
    end
  else if is_float (dtype x) then
    match x with
    | FloatImm _ v => Ok (FloatImm (dtype x) (std_fabs v))
    | _ => Ok (Call (dtype x) "tir.fabs" [x])
    end
  else if is_uint (dtype x) then Ok x
  else Fatal.

Definition isnan (x : PrimExpr) : result PrimExpr :=
  let t := Bool (lanes (dtype x)) in
  if is_int (dtype x) || is_uint (dtype x) then make_const t (Z.b2z false)
  else if is_float (dtype x) then
    match x with
    | FloatImm _ v => make_const t (Z.b2z (std_isnan v))
    | _ =>
        if bits (dtype x) =? 16 then
          x' <- cast (Float 32 (lanes t)) x ;;
          Ok (Call t "tir.isnan" [x'])
        else Ok (Call t "tir.isnan" [x])
    end
  else Fatal.

Definition isinf (x : PrimExpr) : result PrimExpr :=
  let t := Bool (lanes (dtype x)) in
  if is_int (dtype x) || is_uint (dtype x) then make_const t (Z.b2z false)
  else if is_float (dtype x) then
    infX <- infinity (dtype x) ;;
    ax <- abs x ;;
    e <- operator_eq ax infX ;;
    n <- isnan x ;;
    nn <- operator_not n ;;
    operator_and e nn
  else Fatal.

Definition isfinite (x : PrimExpr) : result PrimExpr :=
  i <- isinf x ;;
  ni <- operator_not i ;;
  n <- isnan x ;;
  nn <- operator_not n ;;
  operator_and ni nn.

(** *** Reductions *)

Definition max_reduction (source : PrimExpr) (rdom : list IterVar)
    (init : list PrimExpr) : result PrimExpr :=
  let x := Var "x" (dtype source) in
  let y := Var "y" (dtype source) in
  let result := BinaryOp Max x y in
  identity_element <- min_value (dtype source) ;;
  let combiner := mkCommReducer [x] [y] [result] [identity_element] in
  p <- make_const (Bool 1) (Z.b2z true) ;;
  Ok (Reduce combiner [source] rdom p 0 init).

Definition min_reduction (source : PrimExpr) (rdom : list IterVar)
    (init : list PrimExpr) : result PrimExpr :=
  let x := Var "x" (dtype source) in
  let y := Var "y" (dtype source) in
  let result := BinaryOp Min x y in
  identity_element <- max_value (dtype source) ;;
  let combiner := mkCommReducer [x] [y] [result] [identity_element] in
  p <- make_const (Bool 1) (Z.b2z true) ;;
  Ok (Reduce combiner [source] rdom p 0 init).

(** *** Rounding *)

Definition floor (x : PrimExpr) : result PrimExpr :=
  if is_int (dtype x) || is_uint (dtype x) then Ok x
  else
    match x with
    | FloatImm _ v => Ok (FloatImm (dtype x) (std_floor v))
    | _ => Ok (Call (dtype x) "tir.floor" [x])
    end.

Definition ceil (x : PrimExpr) : result PrimExpr :=
  if is_int (dtype x) || is_uint (dtype x) then Ok x
  else
    match x with
    | FloatImm _ v => Ok (FloatImm (dtype x) (std_ceil v))
    | _ => Ok (Call (dtype x) "tir.ceil" [x])
    end.

Definition round (x : PrimExpr) : result PrimExpr :=
  if is_int (dtype x) || is_uint (dtype x) then Ok x
  else
    match x with
    | FloatImm _ v => Ok (FloatImm (dtype x) (std_nearbyint v))
    | _ => Ok (Call (dtype x) "tir.round" [x])
    end.

Definition trunc (x : PrimExpr) : result PrimExpr :=
  if is_int (dtype x) || is_uint (dtype x) then Ok x
  else
    match x with
    | FloatImm _ v =>
        Ok (FloatImm (dtype x) (if dbl_ltz v then std_ceil v else std_floor v))
    | _ => Ok (Call (dtype x) "tir.trunc" [x])
    end.

(** *** The remaining builders *)

(** The second half of [BinaryOpMatchTypes], from its second
    [lhs.dtype() == rhs.dtype()] test on: the reconciliation of the
    numeric kinds once the lanes agree. *)
Definition match_kinds (lhs rhs : PrimExpr) : result (PrimExpr * PrimExpr) :=
  if DataType_eqb (dtype lhs) (dtype rhs) then Ok (lhs, rhs)
  else if negb (is_float (dtype lhs)) &&
          (is_float (dtype rhs) || GetTypeRegistered (code (dtype rhs))) then
    lhs' <- cast (dtype rhs) lhs ;;
    Ok (lhs', rhs)
  else if (is_float (dtype lhs) || GetTypeRegistered (code (dtype lhs))) &&
          negb (is_float (dtype rhs)) then
    rhs' <- cast (dtype lhs) rhs ;;
    Ok (lhs, rhs')
  else if (is_int (dtype lhs) && is_int (dtype rhs)) ||
          (is_uint (dtype lhs) && is_uint (dtype rhs)) then
    if bits (dtype lhs) <? bits (dtype rhs) then
      lhs' <- cast (dtype rhs) lhs ;;
      Ok (lhs', rhs)
    else
      rhs' <- cast (dtype lhs) rhs ;;
      Ok (lhs, rhs')
  else if (is_int (dtype lhs) && is_uint (dtype rhs)) ||
          (is_uint (dtype lhs) && is_int (dtype rhs)) then
    let bits := Z.max (bits (dtype lhs)) (bits (dtype rhs)) in
    let lhs' := SimpleCast (Int bits (lanes (dtype lhs))) lhs in
    let rhs' := SimpleCast (Int bits (lanes (dtype rhs))) rhs in
    Ok (lhs', rhs')
  else Fatal.

(** Its first half: the reconciliation of the lanes. *)
Definition match_lanes (lhs rhs : PrimExpr) : result (PrimExpr * PrimExpr) :=
  let ltype := dtype lhs in
  let rtype := dtype rhs in
  if (lanes ltype =? 1) && negb (lanes rtype =? 1) then
    Ok (Broadcast lhs (lanes rtype), rhs)
  else if (lanes rtype =? 1) && negb (lanes ltype =? 1) then
    Ok (lhs, Broadcast rhs (lanes ltype))
  else
    _ <- ICHECK (lanes ltype =? lanes rtype) ;;
    Ok (lhs, rhs).

(** An integer or float literal node. *)
Definition is_literal (e : PrimExpr) : bool :=
  match e with
  | IntImm _ _ | FloatImm _ _ => true
  | _ => false
  end.

(** [q_multiply_shift] *)
Definition q_multiply_shift (x y q s : PrimExpr) : PrimExpr :=
  Call (Int 32 (lanes (dtype x))) "tir.q_multiply_shift" [x; y; q; s].

(** [tir::ConstPowerHelper] at [int64_t].  The loop halves [val]
    until a set low bit shows; [shift] is the cell the caller passes
    ([shift[0]]), returned with the verdict.  A positive [int64_t]
    leaves the loop within 63 rounds; [fuel] bounds them, and [None]
    is a loop that has not ended yet. *)
Fixpoint ConstPowerHelper_loop (fuel : nat) (val shift : Z) : option (bool * Z) :=
  match fuel with
  | O => None
  | S fuel' =>
      if val =? 0 then Some (true, shift)
      else if negb (Z.land val 1 =? 0) then Some (val =? 1, shift)
      else ConstPowerHelper_loop fuel' (Z.shiftr val 1) (shift + 1)
  end.

Definition ConstPowerHelper (val shift : Z) : option (bool * Z) :=
  if val <=? 0 then Some (false, shift)
  else ConstPowerHelper_loop 64 val 0.

Definition is_const_power_of_two_integer (x : PrimExpr) (shift : Z)
  : option (bool * Z) :=
  match x with
  | IntImm _ value => ConstPowerHelper value shift
  | _ => Some (false, shift)
  end.

(** The arithmetic and comparison operators. *)
Definition operator_add (a b : PrimExpr) : result PrimExpr :=
  promote_fold_build Add a b.

Definition operator_mul (a b : PrimExpr) : result PrimExpr :=
  promote_fold_build Mul a b.

Definition operator_div (a b : PrimExpr) : result PrimExpr := div a b.

Definition operator_mod (a b : PrimExpr) : result PrimExpr := truncmod a b.

Definition indexdiv (a b : PrimExpr) : result PrimExpr := floordiv a b.

Definition indexmod (a b : PrimExpr) : result PrimExpr := floormod a b.

Definition operator_gt (a b : PrimExpr) : result PrimExpr :=
  promote_fold_build GT a b.

Definition operator_lt (a b : PrimExpr) : result PrimExpr :=
  promote_fold_build LT a b.

Definition operator_le (a b : PrimExpr) : result PrimExpr :=
  promote_fold_build LE a b.

Definition operator_ne (a b : PrimExpr) : result PrimExpr :=
  promote_fold_build NE a b.

Definition operator_or (a b : PrimExpr) : result PrimExpr :=
  _ <- ICHECK (is_bool (dtype a)) ;;
  _ <- ICHECK (is_bool (dtype b)) ;;
  Ok (fold_or_build Or a b).

(** [if_then_else] *)
Definition if_then_else (cond true_value false_value : PrimExpr)
  : result PrimExpr :=
  _ <- ICHECK (DataType_eqb (dtype cond) (Bool 1)) ;;
  '(true_value, false_value) <- BinaryOpMatchTypes true_value false_value ;;
  match cond with
  | IntImm _ v => if negb (v =? 0) then Ok true_value else Ok false_value
  | _ =>
      Ok (Call (dtype true_value) "tir.if_then_else"
            [cond; true_value; false_value])
  end.

(** The bitwise operators.  Their body under
    [TVM_INDEX_CONST_PROPAGATION] folds two literals; [f] is the
    operation on the payloads. *)
Definition bitwise_body (f : Z -> Z -> Z) (a : PrimExpr)
    (pa pb : option Z) : result (option PrimExpr) :=
  let rtype := dtype a in
  match pa, pb with
  | Some va, Some vb => Ok (Some (IntImm rtype (f va vb)))
  | _, _ => Ok None
  end.

Definition bitwise_op (f : Z -> Z -> Z) (name : string) (a b : PrimExpr)
  : result PrimExpr :=
  _ <- ICHECK (int_or_uint (dtype a)) ;;
  _ <- ICHECK (int_or_uint (dtype b)) ;;
  '(a, b) <- BinaryOpMatchTypes a b ;;
  r <- TVM_INDEX_CONST_PROPAGATION a b (bitwise_body f a) ;;
  match r with
  | Some ret => Ok ret
  | None => Ok (Call (dtype a) name [a; b])
  end.

Definition operator_bitand (a b : PrimExpr) : result PrimExpr :=
  bitwise_op Z.land "tir.bitwise_and" a b.

Definition operator_bitor (a b : PrimExpr) : result PrimExpr :=
  bitwise_op Z.lor "tir.bitwise_or" a b.

Definition operator_bitxor (a b : PrimExpr) : result PrimExpr :=
  bitwise_op Z.lxor "tir.bitwise_xor" a b.

Definition operator_bitnot (a : PrimExpr) : result PrimExpr :=
  _ <- ICHECK (int_or_uint (dtype a)) ;;
  Ok (Call (dtype a) "tir.bitwise_not" [a]).

(** [pow] and [fmod]: promotion first, the float check after it. *)
Definition float_call (name : string) (x y : PrimExpr) : result PrimExpr :=
  '(x, y) <- BinaryOpMatchTypes x y ;;
  _ <- ICHECK (is_float (dtype x)) ;;
  Ok (Call (dtype x) name [x; y]).

Definition pow (x y : PrimExpr) : result PrimExpr := float_call "tir.pow" x y.

Definition fmod (x y : PrimExpr) : result PrimExpr := float_call "tir.fmod" x y.

(** [nearbyint] *)
Definition nearbyint (x : PrimExpr) : result PrimExpr :=
  if is_int (dtype x) || is_uint (dtype x) then Ok x
  else
    match x with
    | FloatImm _ v => Ok (FloatImm (dtype x) (std_nearbyint v))
    | _ => Ok (Call (dtype x) "tir.nearbyint" [x])
    end.

(** The reductions [sum], [all], [any] and [prod]. *)
Definition sum_reduction (source : PrimExpr) (rdom : list IterVar)
    (init : list PrimExpr) : result PrimExpr :=
  let x := Var "x" (dtype source) in
  let y := Var "y" (dtype source) in
  let result := BinaryOp Add x y in
  identity_element <- make_zero (dtype source) ;;
  let combiner := mkCommReducer [x] [y] [result] [identity_element] in
  p <- make_const (Bool 1) (Z.b2z true) ;;
  Ok (Reduce combiner [source] rdom p 0 init).

Definition all_reduction (source : PrimExpr) (rdom : list IterVar)
    (init : list PrimExpr) : result PrimExpr :=
  _ <- ICHECK (is_bool (dtype source)) ;;
  let x := Var "x" (dtype source) in
  let y := Var "y" (dtype source) in
  let result := BinaryOp And x y in
  identity_element <- make_const (dtype source) (Z.b2z true) ;;
  let combiner := mkCommReducer [x] [y] [result] [identity_element] in
  p <- make_const (Bool 1) (Z.b2z true) ;;
  Ok (Reduce combiner [source] rdom p 0 init).

Definition any_reduction (source : PrimExpr) (rdom : list IterVar)
    (init : list PrimExpr) : result PrimExpr :=
  _ <- ICHECK (is_bool (dtype source)) ;;
  let x := Var "x" (dtype source) in
  let y := Var "y" (dtype source) in
  let result := BinaryOp Or x y in
  identity_element <- make_const (dtype source) (Z.b2z false) ;;
  let combiner := mkCommReducer [x] [y] [result] [identity_element] in
  p <- make_const (Bool 1) (Z.b2z true) ;;
  Ok (Reduce combiner [source] rdom p 0 init).

Definition prod_reduction (source : PrimExpr) (rdom : list IterVar)
    (init : list PrimExpr) : result PrimExpr :=
  let x := Var "x" (dtype source) in
  let y := Var "y" (dtype source) in
  let result := BinaryOp Mul x y in
  identity_element <- make_const (dtype source) 1 ;;
  let combiner := mkCommReducer [x] [y] [result] [identity_element] in
  p <- make_const (Bool 1) (Z.b2z true) ;;
  Ok (Reduce combiner [source] rdom p 0 init).

(** The lengths of the four lists of a reduction's combiner and of
    its source list. *)
Definition reducer_arity (e : PrimExpr) : option (nat * nat * nat * nat * nat) :=
  match e with
  | Reduce (mkCommReducer l r res ids) source _ _ _ _ =>
      Some (List.length l, List.length r, List.length res,
            List.length ids, List.length source)
  | _ => None
  end.

(** The predicate and the value index of a reduction. *)
Definition reduce_condition (e : PrimExpr) : option (PrimExpr * Z) :=
  match e with
  | Reduce _ _ _ condition value_index _ => Some (condition, value_index)
  | _ => None
  end.

(* =============================================================== *)
(** ** Properties *)

(** Splits a conjunction into its parts, and nothing else. *)
Ltac conj_split := repeat match goal with |- _ /\ _ => split end.

(** *** Equality of type descriptors *)

Lemma TypeCode_eqb_eq (c1 c2 : TypeCode) :
  TypeCode_eqb c1 c2 = true <-> c1 = c2.
Proof.
  destruct c1, c2; simpl; split; intro H;
    try reflexivity; try discriminate.
  - apply Z.eqb_eq in H. now subst.
  - injection H as ->. apply Z.eqb_refl.
Qed.

Lemma DataType_eqb_eq (t1 t2 : DataType) :
  DataType_eqb t1 t2 = true <-> t1 = t2.
Proof.
  destruct t1 as [c1 b1 l1], t2 as [c2 b2 l2]; unfold DataType_eqb; simpl.
  rewrite !andb_true_iff, TypeCode_eqb_eq, !Z.eqb_eq.
  split.
  - intros [[-> ->] ->]. reflexivity.
  - intros H. injection H as -> -> ->. auto.
Qed.

Lemma DataType_eqb_refl (t : DataType) : DataType_eqb t t = true.
Proof. now apply DataType_eqb_eq. Qed.

Lemma DataType_eqb_neq (t1 t2 : DataType) :
  t1 <> t2 -> DataType_eqb t1 t2 = false.
Proof.
  intro H. destruct (DataType_eqb t1 t2) eqn:E; [|reflexivity].
  apply DataType_eqb_eq in E. contradiction.
Qed.

Lemma with_lanes_element_of (t : DataType) :
  with_lanes (element_of t) (lanes t) = t.
Proof. now destruct t. Qed.

Lemma float_not_int_or_uint (t : DataType) :
  is_float t = true -> int_or_uint t = false.
Proof.
  unfold is_float, int_or_uint, is_int, is_uint.
  now destruct (code t).
Qed.

(** *** Integer wrap-around *)

Lemma to_int64_small (z : Z) :
  - 2 ^ 63 <= z < 2 ^ 63 -> to_int64 z = z.
Proof.
  intro H. unfold to_int64.
  rewrite Z.mod_small; lia.
Qed.

Lemma to_uint64_small (z : Z) :
  0 <= z < 2 ^ 64 -> to_uint64 z = z.
Proof. intro H. unfold to_uint64. now apply Z.mod_small. Qed.

Lemma pow2_le (n m : Z) : 0 <= n <= m -> 0 < 2 ^ n <= 2 ^ m.
Proof.
  intro H. split.
  - apply Z.pow_pos_nonneg; lia.
  - apply Z.pow_le_mono_r; lia.
Qed.

Lemma shiftl_1 (n : Z) : 0 <= n -> Z.shiftl 1 n = 2 ^ n.
Proof. intro H. rewrite Z.shiftl_mul_pow2 by assumption. lia. Qed.

(** The float limits are canonical binary64 values, and the float
    maximum is the widening of a canonical binary32 value. *)
Lemma float_limits_canonical :
  valid_binary 53 1024 DBL_MAX = true /\
  valid_binary 53 1024 FLT_MAX = true /\
  valid_binary 53 1024 dbl_65504 = true /\
  valid_binary 24 128 (S754_finite false (2 ^ 24 - 1) 104) = true /\
  dbl_scaled 0 FLT_MAX = Some ((2 ^ 24 - 1) * 2 ^ 104).
Proof. conj_split; reflexivity. Qed.

(** *** Rounding builders *)

(** C10: for an operand of integer or unsigned kind, [floor],
    [ceil], [round] and [trunc] each return the operand itself,
    unchanged: no cast, no call node, no new literal. *)
Theorem rounding_integer_operand_unchanged (x : PrimExpr) :
  is_int (dtype x) || is_uint (dtype x) = true ->
  floor x = Ok x /\ ceil x = Ok x /\ round x = Ok x /\ trunc x = Ok x.
Proof.
  intro H. unfold floor, ceil, round, trunc.
  rewrite H. repeat split.
Qed.

(** *** Infinity-aware [min] and [max] *)

(** No expression is both sentinels. *)
Hypothesis inf_disjoint :
  forall e, is_pos_inf e = true -> is_neg_inf e = false.


(** *** Truncating division and modulo *)

Lemma promote_same_dtype (op : BinOp) (a b : PrimExpr) :
  dtype a = dtype b -> promote_fold_build op a b = Ok (fold_or_build op a b).
Proof.
  intro H. unfold promote_fold_build, BinaryOpMatchTypes.
  rewrite H, DataType_eqb_refl. reflexivity.
Qed.

(** C3 (amended): [truncdiv] asserts that each operand is of
    integer or unsigned kind before it delegates to [div], so it
    aborts whenever either operand is of float kind.  [truncmod]
    asserts nothing about the kinds: it promotes, tries to fold and
    builds a [Mod] node, and for two operands of one dtype, float
    included, it returns an expression. *)
Theorem truncdiv_asserts_kind_truncmod_does_not (a b : PrimExpr) :
  (is_float (dtype a) = true \/ is_float (dtype b) = true ->
   truncdiv a b = Fatal) /\
  (int_or_uint (dtype a) = false \/ int_or_uint (dtype b) = false ->
   truncdiv a b = Fatal) /\
  (int_or_uint (dtype a) = true -> int_or_uint (dtype b) = true ->
   truncdiv a b = div a b) /\
  truncmod a b =
    ('(a', b') <- BinaryOpMatchTypes a b ;; Ok (fold_or_build Mod a' b')) /\
  (dtype a = dtype b -> truncmod a b = Ok (fold_or_build Mod a b)).
Proof.
  assert (K : int_or_uint (dtype a) = false \/ int_or_uint (dtype b) = false ->
              truncdiv a b = Fatal).
  { unfold truncdiv. intros [H | H]; rewrite H; simpl; [reflexivity|].
    now destruct (int_or_uint (dtype a)). }
  repeat split.
  - intros [H | H]; apply K; [left | right]; now apply float_not_int_or_uint.
  - exact K.
  - intros Ha Hb. unfold truncdiv. now rewrite Ha, Hb.
  - intro H. unfold truncmod. now apply promote_same_dtype.
Qed.

(** *** Numeric limits *)

(** C4: [min_value] defers to the Custom-Type Registry: on a
    (scalar) dtype whose code is registered it returns the
    registered minimum callback applied to the bit width; it aborts
    when the code is registered without a callback, and when the
    code is a custom one with no registry entry.  [max_value] and
    [infinity] take no registry at all, and abort on every
    custom-coded dtype. *)
Theorem min_value_consults_registry (t : DataType) :
  (lanes t = 1 -> GetTypeRegistered (code t) = true ->
   forall f, GetMinFunc (code t) = Some f -> min_value t = f (bits t)) /\
  (GetTypeRegistered (code t) = true -> GetMinFunc (code t) = None ->
   min_value t = Fatal) /\
  (is_custom (code t) = true -> GetTypeRegistered (code t) = false ->
   min_value t = Fatal) /\
  (is_custom (code t) = true -> max_value t = Fatal /\ infinity t = Fatal).
Proof.
  unfold min_value, max_value, infinity, is_int, is_uint, is_float.
  repeat split.
  - intros Hl Hr f Hf. rewrite Hl, Hr, Hf. reflexivity.
  - intros Hr Hf. rewrite Hr, Hf. now destruct (ICHECK (lanes t =? 1)).
  - intros Hc Hr. rewrite Hr.
    destruct (ICHECK (lanes t =? 1)); [simpl|reflexivity].
    now destruct (code t).
  - destruct (ICHECK (lanes t =? 1)); [simpl|reflexivity].
    now destruct (code t).
  - destruct (ICHECK (lanes t =? 1)); [simpl|reflexivity].
    now destruct (code t).
Qed.

(** The registry holds custom codes only. *)
Hypothesis registered_is_custom :
  forall c, GetTypeRegistered c = true -> is_custom c = true.

Lemma builtin_not_registered (c : TypeCode) :
  is_custom c = false -> GetTypeRegistered c = false.
Proof.
  intro H. destruct (GetTypeRegistered c) eqn:E; [|reflexivity].
  apply registered_is_custom in E. congruence.
Qed.

Lemma max_value_Int (b : Z) :
  1 <= b <= 64 -> max_value (Int b 1) = Ok (IntImm (Int b 1) (2 ^ (b - 1) - 1)).
Proof.
  intro H. unfold max_value. simpl.
  destruct (Z.eqb_spec b 64) as [-> | Hb]; [reflexivity|].
  destruct (Z.ltb_spec b 64); [|lia].
  rewrite shiftl_1 by lia.
  pose proof (pow2_le (b - 1) 62 ltac:(lia)) as P.
  assert (2 ^ 62 < 2 ^ 63) by (apply Z.pow_lt_mono_r; lia).
  rewrite (to_int64_small (2 ^ (b - 1))) by lia.
  rewrite to_int64_small by lia. reflexivity.
Qed.

Lemma min_value_Int (b : Z) :
  1 <= b <= 64 -> min_value (Int b 1) = Ok (IntImm (Int b 1) (- 2 ^ (b - 1))).
Proof.
  intro H. unfold min_value. simpl.
  rewrite builtin_not_registered by reflexivity.
  destruct (Z.eqb_spec b 64) as [-> | Hb]; [reflexivity|].
  destruct (Z.ltb_spec b 64); [|lia].
  rewrite shiftl_1 by lia.
  pose proof (pow2_le (b - 1) 62 ltac:(lia)) as P.
  assert (2 ^ 62 < 2 ^ 63) by (apply Z.pow_lt_mono_r; lia).
  rewrite (to_int64_small (2 ^ (b - 1))) by lia.
  rewrite to_int64_small by lia. reflexivity.
Qed.

Lemma max_value_UInt (b : Z) :
  0 <= b < 64 -> max_value (UInt b 1) = Ok (IntImm (UInt b 1) (2 ^ b - 1)).
Proof.
  intro H. unfold max_value. simpl.
  destruct (Z.eqb_spec b 64); [lia|].
  destruct (Z.ltb_spec b 64); [|lia].
  assert (2 ^ 63 < 2 ^ 64) by (apply Z.pow_lt_mono_r; lia).
  rewrite (to_uint64_small b) by lia.
  rewrite shiftl_1 by lia.
  pose proof (pow2_le b 63 ltac:(lia)) as P.
  rewrite (to_uint64_small (2 ^ b)) by lia.
  rewrite to_uint64_small by lia.
  rewrite to_int64_small by lia. reflexivity.
Qed.

Lemma min_value_UInt (b : Z) :
  min_value (UInt b 1) = Ok (IntImm (UInt b 1) 0).
Proof.
  unfold min_value. simpl.
  now rewrite builtin_not_registered by reflexivity.
Qed.

(** C5: on the scalar builtin numeric types the limits are the
    exact boundaries: two's complement for a signed width up to 64
    ([max_value(Int8)] is 127, [min_value(Int8)] is -128),
    [2^bits - 1] and [0] for an unsigned width (255 for [UInt8]; at
    64 bits the maximum is the constant built from [2^64 - 1]), and
    for floats the largest finite double, float and half
    ([max_value(Float16)] is 65504.0) and their negations. *)
Theorem numeric_limit_boundaries :
  (forall b, 1 <= b <= 64 ->
     max_value (Int b 1) = Ok (IntImm (Int b 1) (2 ^ (b - 1) - 1)) /\
     min_value (Int b 1) = Ok (IntImm (Int b 1) (- 2 ^ (b - 1)))) /\
  (forall b, 0 <= b < 64 ->
     max_value (UInt b 1) = Ok (IntImm (UInt b 1) (2 ^ b - 1))) /\
  max_value (UInt 64 1) = make_const (UInt 64 1) (2 ^ 64 - 1) /\
  (forall b, min_value (UInt b 1) = Ok (IntImm (UInt b 1) 0)) /\
  (max_value (Int 8 1) = Ok (IntImm (Int 8 1) 127) /\
   min_value (Int 8 1) = Ok (IntImm (Int 8 1) (-128)) /\
   max_value (UInt 8 1) = Ok (IntImm (UInt 8 1) 255) /\
   min_value (UInt 8 1) = Ok (IntImm (UInt 8 1) 0)) /\
  (max_value (Float 16 1) = Ok (FloatImm (Float 16 1) dbl_65504) /\
   dbl_scaled 37 dbl_65504 = Some (65504 * 2 ^ 37) /\
   min_value (Float 16 1) = Ok (FloatImm (Float 16 1) (dbl_neg dbl_65504))) /\
  (max_value (Float 32 1) = Ok (FloatImm (Float 32 1) FLT_MAX) /\
   min_value (Float 32 1) = Ok (FloatImm (Float 32 1) (dbl_neg FLT_MAX)) /\
   max_value (Float 64 1) = Ok (FloatImm (Float 64 1) DBL_MAX) /\
   min_value (Float 64 1) = Ok (FloatImm (Float 64 1) (dbl_neg DBL_MAX))).
Proof.
  assert (F : forall b, min_value (Float b 1) =
                        (if b =? 64 then Ok (FloatImm (Float b 1) (dbl_neg DBL_MAX))
                         else if b =? 32 then Ok (FloatImm (Float b 1) (dbl_neg FLT_MAX))
                         else if b =? 16 then Ok (FloatImm (Float b 1) (dbl_neg dbl_65504))
                         else Fatal)).
  { intro b. unfold min_value. simpl.
    now rewrite builtin_not_registered by reflexivity. }
  split; [|split; [|split; [|split; [|split; [|split]]]]].
  - intros b Hb. split; [now apply max_value_Int | now apply min_value_Int].
  - exact max_value_UInt.
  - reflexivity.
  - exact min_value_UInt.
  - conj_split.
    + apply (max_value_Int 8). lia.
    + apply (min_value_Int 8). lia.
    + apply (max_value_UInt 8). lia.
    + apply min_value_UInt.
  - conj_split; [reflexivity | reflexivity | apply (F 16)].
  - conj_split; [reflexivity | apply (F 32) | reflexivity | apply (F 64)].
Qed.

(** *** Reduction identities *)

(** C6: the min-reduction packages exactly [max_value] of the
    source dtype as the identity element of its combiner, and the
    max-reduction exactly [min_value] of it; a min-reduction over an
    [Int32] source has the identity 2147483647. *)
Theorem reduction_identity_is_opposite_limit
    (source : PrimExpr) (rdom : list IterVar) (init : list PrimExpr) :
  (forall r, min_reduction source rdom init = Ok r ->
     exists i, max_value (dtype source) = Ok i /\ identity_elements r = Some [i]) /\
  (forall r, max_reduction source rdom init = Ok r ->
     exists i, min_value (dtype source) = Ok i /\ identity_elements r = Some [i]) /\
  (forall i p, max_value (dtype source) = Ok i ->
     make_const (Bool 1) (Z.b2z true) = Ok p ->
     min_reduction source rdom init =
       Ok (Reduce (mkCommReducer [Var "x" (dtype source)] [Var "y" (dtype source)]
                     [BinaryOp Min (Var "x" (dtype source)) (Var "y" (dtype source))] [i])
             [source] rdom p 0 init)) /\
  (forall i p, min_value (dtype source) = Ok i ->
     make_const (Bool 1) (Z.b2z true) = Ok p ->
     max_reduction source rdom init =
       Ok (Reduce (mkCommReducer [Var "x" (dtype source)] [Var "y" (dtype source)]
                     [BinaryOp Max (Var "x" (dtype source)) (Var "y" (dtype source))] [i])
             [source] rdom p 0 init)) /\
  (forall r, dtype source = Int 32 1 ->
     min_reduction source rdom init = Ok r ->
     identity_elements r = Some [IntImm (Int 32 1) 2147483647]).
Proof.
  unfold min_reduction, max_reduction. cbv zeta.
  split; [|split; [|split; [|split]]].
  - intros r H. destruct (max_value (dtype source)) as [i|]; [|discriminate].
    cbn [bind] in H.
    destruct (make_const (Bool 1) (Z.b2z true)); [|discriminate].
    cbn [bind] in H. injection H as <-. exists i. split; reflexivity.
  - intros r H. destruct (min_value (dtype source)) as [i|]; [|discriminate].
    cbn [bind] in H.
    destruct (make_const (Bool 1) (Z.b2z true)); [|discriminate].
    cbn [bind] in H. injection H as <-. exists i. split; reflexivity.
  - intros i p Hi Hp. rewrite Hi. cbn [bind]. rewrite Hp. reflexivity.
  - intros i p Hi Hp. rewrite Hi. cbn [bind]. rewrite Hp. reflexivity.
  - intros r Ht H. rewrite Ht in H.
    rewrite (max_value_Int 32) in H by lia.
    cbn [bind] in H.
    destruct (make_const (Bool 1) (Z.b2z true)); [|discriminate].
    cbn [bind] in H. injection H as <-. reflexivity.
Qed.


(** *** Type promotion of mixed signedness *)

Lemma mixed_sign_neq (t1 t2 : DataType) :
  mixed_sign t1 t2 = true -> DataType_eqb t1 t2 = false.
Proof.
  intro H. apply DataType_eqb_neq. intros ->.
  unfold mixed_sign, is_int, is_uint in H. now destruct (code t2).
Qed.

Lemma SimpleCast_dtype (t : DataType) (e : PrimExpr) :
  dtype (SimpleCast t e) = t.
Proof.
  unfold SimpleCast. destruct (DataType_eqb (dtype e) t) eqn:E.
  - now apply DataType_eqb_eq.
  - reflexivity.
Qed.

(** After the lanes agree, operands of mixed signedness are both
    simply cast to the signed type of the wider bit width. *)
Lemma match_kinds_mixed_sign (lhs rhs : PrimExpr) :
  mixed_sign (dtype lhs) (dtype rhs) = true ->
  (if DataType_eqb (dtype lhs) (dtype rhs) then Ok (lhs, rhs)
   else if negb (is_float (dtype lhs)) &&
           (is_float (dtype rhs) || GetTypeRegistered (code (dtype rhs))) then
     lhs' <- cast (dtype rhs) lhs ;; Ok (lhs', rhs)
   else if (is_float (dtype lhs) || GetTypeRegistered (code (dtype lhs))) &&
           negb (is_float (dtype rhs)) then
     rhs' <- cast (dtype lhs) rhs ;; Ok (lhs, rhs')
   else if (is_int (dtype lhs) && is_int (dtype rhs)) ||
           (is_uint (dtype lhs) && is_uint (dtype rhs)) then
     if bits (dtype lhs) <? bits (dtype rhs) then
       lhs' <- cast (dtype rhs) lhs ;; Ok (lhs', rhs)
     else
       rhs' <- cast (dtype lhs) rhs ;; Ok (lhs, rhs')
   else if (is_int (dtype lhs) && is_uint (dtype rhs)) ||
           (is_uint (dtype lhs) && is_int (dtype rhs)) then
     let bits := Z.max (bits (dtype lhs)) (bits (dtype rhs)) in
     let lhs' := SimpleCast (Int bits (lanes (dtype lhs))) lhs in
     let rhs' := SimpleCast (Int bits (lanes (dtype rhs))) rhs in
     Ok (lhs', rhs')
   else Fatal) =
  Ok (SimpleCast (Int (Z.max (bits (dtype lhs)) (bits (dtype rhs)))
                      (lanes (dtype lhs))) lhs,
      SimpleCast (Int (Z.max (bits (dtype lhs)) (bits (dtype rhs)))
                      (lanes (dtype rhs))) rhs).
Proof.
  intro H. rewrite (mixed_sign_neq _ _ H).
  assert (Rl : GetTypeRegistered (code (dtype lhs)) = false).
  { apply builtin_not_registered. unfold mixed_sign, is_int, is_uint in H.
    destruct (code (dtype lhs)); try reflexivity; simpl in H; discriminate. }
  assert (Rr : GetTypeRegistered (code (dtype rhs)) = false).
  { apply builtin_not_registered. unfold mixed_sign, is_int, is_uint in H.
    destruct (code (dtype lhs)), (code (dtype rhs));
      try reflexivity; simpl in H; discriminate. }
  rewrite Rl, Rr.
  unfold mixed_sign in H.
  unfold is_float, is_int, is_uint in *.
  destruct (code (dtype lhs)), (code (dtype rhs));
    simpl in H; try discriminate; reflexivity.
Qed.

Lemma BinaryOpMatchTypes_mixed_sign (lhs rhs : PrimExpr) :
  mixed_sign (dtype lhs) (dtype rhs) = true ->
  lanes (dtype lhs) = lanes (dtype rhs) ->
  BinaryOpMatchTypes lhs rhs =
    Ok (SimpleCast (Int (Z.max (bits (dtype lhs)) (bits (dtype rhs)))
                        (lanes (dtype lhs))) lhs,
        SimpleCast (Int (Z.max (bits (dtype lhs)) (bits (dtype rhs)))
                        (lanes (dtype lhs))) rhs).
Proof.
  intros H L. unfold BinaryOpMatchTypes.
  rewrite (mixed_sign_neq _ _ H). cbv zeta.
  assert (E1 : (lanes (dtype lhs) =? 1) && negb (lanes (dtype rhs) =? 1) = false)
    by (rewrite L; now destruct (lanes (dtype rhs) =? 1)).
  assert (E2 : (lanes (dtype rhs) =? 1) && negb (lanes (dtype lhs) =? 1) = false)
    by (rewrite L; now destruct (lanes (dtype rhs) =? 1)).
  assert (E3 : (lanes (dtype lhs) =? lanes (dtype rhs)) = true)
    by (rewrite L; apply Z.eqb_refl).
  rewrite E1, E2, E3. cbn [ICHECK bind].
  rewrite L at 3.
  exact (match_kinds_mixed_sign lhs rhs H).
Qed.

Lemma BinaryOpMatchTypes_mixed_sign_broadcast_l (lhs rhs : PrimExpr) :
  mixed_sign (dtype lhs) (dtype rhs) = true ->
  lanes (dtype lhs) = 1 -> lanes (dtype rhs) <> 1 ->
  BinaryOpMatchTypes lhs rhs =
    Ok (SimpleCast (Int (Z.max (bits (dtype lhs)) (bits (dtype rhs)))
                        (lanes (dtype rhs))) (Broadcast lhs (lanes (dtype rhs))),
        SimpleCast (Int (Z.max (bits (dtype lhs)) (bits (dtype rhs)))
                        (lanes (dtype rhs))) rhs).
Proof.
  intros H L1 L2. unfold BinaryOpMatchTypes.
  rewrite (mixed_sign_neq _ _ H). cbv zeta.
  rewrite L1. apply Z.eqb_neq in L2. rewrite L2. cbn [Z.eqb negb andb bind].
  exact (match_kinds_mixed_sign (Broadcast lhs (lanes (dtype rhs))) rhs H).
Qed.

Lemma BinaryOpMatchTypes_mixed_sign_broadcast_r (lhs rhs : PrimExpr) :
  mixed_sign (dtype lhs) (dtype rhs) = true ->
  lanes (dtype rhs) = 1 -> lanes (dtype lhs) <> 1 ->
  BinaryOpMatchTypes lhs rhs =
    Ok (SimpleCast (Int (Z.max (bits (dtype lhs)) (bits (dtype rhs)))
                        (lanes (dtype lhs))) lhs,
        SimpleCast (Int (Z.max (bits (dtype lhs)) (bits (dtype rhs)))
                        (lanes (dtype lhs))) (Broadcast rhs (lanes (dtype lhs)))).
Proof.
  intros H L1 L2. unfold BinaryOpMatchTypes.
  rewrite (mixed_sign_neq _ _ H). cbv zeta.
  rewrite L1. apply Z.eqb_neq in L2. rewrite L2. cbn [Z.eqb negb andb bind].
  exact (match_kinds_mixed_sign lhs (Broadcast rhs (lanes (dtype lhs))) H).
Qed.

(** C2: promotion of one signed and one unsigned integer operand
    (lanes equal, or one side scalar and broadcast) casts both to
    the signed integer type whose width is the larger of the two
    widths.  [match_types(int32, uint32)] and
    [match_types(uint32, int32)] both give two [int32] operands: the
    signed side is kept, the unsigned side is wrapped in a cast. *)
Theorem match_types_mixed_signedness_is_signed (lhs rhs : PrimExpr) :
  (is_int (dtype lhs) && is_uint (dtype rhs)) ||
  (is_uint (dtype lhs) && is_int (dtype rhs)) = true ->
  (lanes (dtype lhs) = lanes (dtype rhs) \/
   lanes (dtype lhs) = 1 \/ lanes (dtype rhs) = 1) ->
  (exists lhs' rhs',
     BinaryOpMatchTypes lhs rhs = Ok (lhs', rhs') /\
     dtype lhs' = Int (Z.max (bits (dtype lhs)) (bits (dtype rhs)))
                      (if lanes (dtype lhs) =? 1 then lanes (dtype rhs)
                       else lanes (dtype lhs)) /\
     dtype rhs' = dtype lhs') /\
  (lanes (dtype lhs) = lanes (dtype rhs) ->
   BinaryOpMatchTypes lhs rhs =
     Ok (SimpleCast (Int (Z.max (bits (dtype lhs)) (bits (dtype rhs)))
                         (lanes (dtype lhs))) lhs,
         SimpleCast (Int (Z.max (bits (dtype lhs)) (bits (dtype rhs)))
                         (lanes (dtype lhs))) rhs)) /\
  (dtype lhs = Int 32 1 -> dtype rhs = UInt 32 1 ->
   BinaryOpMatchTypes lhs rhs = Ok (lhs, Cast (Int 32 1) rhs)) /\
  (dtype lhs = UInt 32 1 -> dtype rhs = Int 32 1 ->
   BinaryOpMatchTypes lhs rhs = Ok (Cast (Int 32 1) lhs, rhs)).
Proof.
  intros H L. fold (mixed_sign (dtype lhs) (dtype rhs)) in H.
  split; [|split; [|split]].
  - destruct (Z.eq_dec (lanes (dtype lhs)) (lanes (dtype rhs))) as [E | NE].
    + rewrite (BinaryOpMatchTypes_mixed_sign lhs rhs H E).
      eexists. eexists. split; [reflexivity|].
      rewrite !SimpleCast_dtype. split; [|reflexivity].
      destruct (Z.eqb_spec (lanes (dtype lhs)) 1); congruence.
    + destruct L as [L | [L | L]]; [contradiction| |].
      * rewrite (BinaryOpMatchTypes_mixed_sign_broadcast_l lhs rhs H L)
          by congruence.
        eexists. eexists. split; [reflexivity|].
        rewrite !SimpleCast_dtype. split; [|reflexivity].
        now rewrite L.
      * rewrite (BinaryOpMatchTypes_mixed_sign_broadcast_r lhs rhs H L)
          by congruence.
        eexists. eexists. split; [reflexivity|].
        rewrite !SimpleCast_dtype. split; [|reflexivity].
        destruct (Z.eqb_spec (lanes (dtype lhs)) 1); congruence.
  - now apply BinaryOpMatchTypes_mixed_sign.
  - intros El Er.
    rewrite (BinaryOpMatchTypes_mixed_sign lhs rhs H) by now rewrite El, Er.
    unfold SimpleCast. rewrite El, Er. reflexivity.
  - intros El Er.
    rewrite (BinaryOpMatchTypes_mixed_sign lhs rhs H) by now rewrite El, Er.
    unfold SimpleCast. rewrite El, Er. reflexivity.
Qed.

(** *** Cast *)

(** Constant construction yields an expression of the requested
    type. *)
Hypothesis make_const_dtype :
  forall t v e, make_const t v = Ok e -> dtype e = t.
Hypothesis make_const_fp_dtype :
  forall t v e, make_const_fp t v = Ok e -> dtype e = t.

Lemma cast_same_dtype (t : DataType) (x : PrimExpr) :
  dtype x = t -> cast t x = Ok x.
Proof.
  intro H. unfold cast. now rewrite H, DataType_eqb_refl.
Qed.

Lemma cast_dtype (t : DataType) (x y : PrimExpr) :
  cast t x = Ok y -> dtype y = t.
Proof.
  unfold cast.
  destruct (DataType_eqb (dtype x) t) eqn:E.
  { intro H. injection H as <-. now apply DataType_eqb_eq. }
  destruct (lanes t =? 1).
  { destruct x; intro H;
      try (injection H as <-; reflexivity);
      eauto using make_const_dtype, make_const_fp_dtype. }
  destruct (lanes (dtype x) =? 1).
  - destruct (negb (DataType_eqb (dtype x) (element_of t))) eqn:N.
    + assert (K : forall r : result PrimExpr,
                 (forall e, r = Ok e -> dtype e = element_of t) ->
                 (value' <- r ;; Ok (Broadcast value' (lanes t))) = Ok y ->
                 dtype y = t).
      { intros [e|] Hr H; [|discriminate]. cbn [bind] in H.
        injection H as <-. cbn [dtype]. rewrite (Hr e eq_refl).
        apply with_lanes_element_of. }
      destruct x; apply K; intros e He;
        try (injection He as <-; reflexivity);
        eauto using make_const_dtype, make_const_fp_dtype.
    + apply negb_false_iff, DataType_eqb_eq in N.
      cbn [bind]. intro H. injection H as <-. cbn [dtype]. rewrite N.
      apply with_lanes_element_of.
  - destruct (ICHECK (lanes (dtype x) =? lanes t)); [|discriminate].
    cbn [bind]. intro H. now injection H as <-.
Qed.

(** C8: [cast] is idempotent at the target type: casting the
    result of [cast t x] to [t] again gives that same result (and a
    failed cast stays failed), because [cast] returns an operand
    that already has the target type unchanged. *)
Theorem cast_idempotent (t : DataType) (x : PrimExpr) :
  (y <- cast t x ;; cast t y) = cast t x /\
  (forall y, cast t x = Ok y -> dtype y = t /\ cast t y = Ok y) /\
  (dtype x = t -> cast t x = Ok x).
Proof.
  assert (K : forall y, cast t x = Ok y -> dtype y = t /\ cast t y = Ok y).
  { intros y H. pose proof (cast_dtype t x y H) as D.
    split; [assumption | now apply cast_same_dtype]. }
  split; [|split].
  - destruct (cast t x) as [y|] eqn:E; [|reflexivity].
    cbn [bind]. now apply K.
  - exact K.
  - apply cast_same_dtype.
Qed.

(** *** Shifts by a literal *)

Lemma shift_body_zero (sh : Z -> Z -> Z) (a b : PrimExpr) (t0 : DataType) :
  as_IntImm a = None -> b = IntImm t0 0 -> 0 < bits (dtype a) ->
  shift_body sh a b (as_IntImm a) (as_IntImm b) = Ok (Some a).
Proof.
  intros Ha -> Hb. unfold shift_body. rewrite Ha. cbn [as_IntImm].
  destruct (Z.ltb_spec 0 (bits (dtype a))); [|lia]. reflexivity.
Qed.

Lemma shift_body_out_of_range (sh : Z -> Z -> Z) (a b : PrimExpr)
    (t0 : DataType) (v : Z) :
  b = IntImm t0 v -> v < 0 \/ bits (dtype a) <= v ->
  shift_body sh a b (as_IntImm a) (as_IntImm b) = Fatal.
Proof.
  intros -> Hv. unfold shift_body. cbn [as_IntImm].
  replace ((0 <=? v) && (v <? bits (dtype a))) with false; [reflexivity|].
  symmetry. apply andb_false_iff.
  destruct Hv; [left; now apply Z.leb_gt | right; now apply Z.ltb_ge].
Qed.

(** C7 (amended): the shifts work on the promoted operands.  When
    the right operand is still the literal [0] after promotion and
    the promoted types are index types (the types on which
    [TVM_INDEX_CONST_PROPAGATION] runs its body), [<<] and [>>]
    return the promoted left operand -- the symbolic [x] itself when
    both operands have [x]'s dtype.  Under the same proviso on the
    types, a right operand that is still a literal after promotion,
    with a value outside [[0, bits of the promoted type)], aborts.
    An unsigned literal beside a signed left operand does not stay a
    literal: promotion wraps it in a cast, and the shift call is
    built whatever its value. *)
Theorem shift_by_literal (a b : PrimExpr) :
  int_or_uint (dtype a) = true -> int_or_uint (dtype b) = true ->
  (forall a' b' t0,
     BinaryOpMatchTypes a b = Ok (a', b') ->
     b' = IntImm t0 0 -> as_IntImm a' = None ->
     IsIndexType (dtype a') = true -> IsIndexType (dtype b') = true ->
     0 < bits (dtype a') ->
     operator_shl a b = Ok a' /\ operator_shr a b = Ok a') /\
  (as_IntImm a = None -> b = IntImm (dtype a) 0 ->
   IsIndexType (dtype a) = true -> 0 < bits (dtype a) ->
   operator_shl a b = Ok a /\ operator_shr a b = Ok a) /\
  (forall a' b' t0 v,
     BinaryOpMatchTypes a b = Ok (a', b') -> b' = IntImm t0 v ->
     IsIndexType (dtype a') = true -> IsIndexType (dtype b') = true ->
     v < 0 \/ bits (dtype a') <= v ->
     operator_shl a b = Fatal /\ operator_shr a b = Fatal) /\
  (forall t0 v,
     is_int (dtype a) = true -> b = IntImm t0 v -> is_uint t0 = true ->
     lanes (dtype a) = lanes t0 ->
     operator_shl a b =
       Ok (Call (Int (Z.max (bits (dtype a)) (bits t0)) (lanes (dtype a)))
             "tir.shift_left"
             [SimpleCast (Int (Z.max (bits (dtype a)) (bits t0))
                              (lanes (dtype a))) a;
              Cast (Int (Z.max (bits (dtype a)) (bits t0)) (lanes (dtype a))) b])
     /\
     operator_shr a b =
       Ok (Call (Int (Z.max (bits (dtype a)) (bits t0)) (lanes (dtype a)))
             "tir.shift_right"
             [SimpleCast (Int (Z.max (bits (dtype a)) (bits t0))
                              (lanes (dtype a))) a;
              Cast (Int (Z.max (bits (dtype a)) (bits t0)) (lanes (dtype a))) b])).
Proof.
  intros Ia Ib.
  assert (Z0 : forall a' b' t0,
             BinaryOpMatchTypes a b = Ok (a', b') ->
             b' = IntImm t0 0 -> as_IntImm a' = None ->
             IsIndexType (dtype a') = true -> IsIndexType (dtype b') = true ->
             0 < bits (dtype a') ->
             operator_shl a b = Ok a' /\ operator_shr a b = Ok a').
  { intros a' b' t0 M Hb Ha Ga Gb Hbits.
    unfold operator_shl, operator_shr, TVM_INDEX_CONST_PROPAGATION.
    rewrite Ia, Ib, M. cbn [ICHECK bind]. rewrite Ga, Gb. cbn [andb].
    rewrite !(shift_body_zero _ a' b' t0) by assumption.
    split; reflexivity. }
  split; [exact Z0 | split; [|split]].
  - intros Ha Hb Ga Hbits.
    apply (Z0 a b (dtype a)); try assumption.
    + unfold BinaryOpMatchTypes. subst b. cbn [dtype].
      now rewrite DataType_eqb_refl.
    + now subst b.
  - intros a' b' t0 v M Hb Ga Gb Hv.
    unfold operator_shl, operator_shr, TVM_INDEX_CONST_PROPAGATION.
    rewrite Ia, Ib, M. cbn [ICHECK bind]. rewrite Ga, Gb. cbn [andb].
    rewrite !(shift_body_out_of_range _ a' b' t0 v) by assumption.
    split; reflexivity.
  - intros t0 v Sa Hb U L.
    set (T := Int (Z.max (bits (dtype a)) (bits t0)) (lanes (dtype a))).
    assert (M : BinaryOpMatchTypes a b = Ok (SimpleCast T a, Cast T b)).
    { rewrite (BinaryOpMatchTypes_mixed_sign a b).
      - subst b. cbn [dtype]. fold T. do 2 f_equal.
        unfold SimpleCast. cbn [dtype].
        rewrite DataType_eqb_neq; [reflexivity|].
        intro E. rewrite E in U. discriminate.
      - subst b. cbn [dtype]. unfold mixed_sign. now rewrite Sa, U.
      - now subst b. }
    unfold operator_shl, operator_shr, TVM_INDEX_CONST_PROPAGATION, shift_body.
    rewrite Ia, Ib, M. cbn [ICHECK bind as_IntImm].
    rewrite SimpleCast_dtype.
    destruct (IsIndexType T && IsIndexType (dtype (Cast T b)));
      destruct (as_IntImm (SimpleCast T a)); split; reflexivity.
Qed.


(** The promoted left operand is not the operand itself as soon as
    promotion has to widen it: an [int8] variable shifted by an
    [int32] literal [0] comes back wrapped in a cast, or inside a
    shift call, whatever the index-type test answers. *)
Lemma shift_zero_of_narrow_operand (name : string) :
  let x := Var name (Int 8 1) in
  let x' := Cast (Int 32 1) x in
  let zero := IntImm (Int 32 1) 0 in
  operator_shl x zero =
    Ok (if IsIndexType (Int 32 1) then x'
        else Call (Int 32 1) "tir.shift_left" [x'; zero]) /\
  operator_shr x zero =
    Ok (if IsIndexType (Int 32 1) then x'
        else Call (Int 32 1) "tir.shift_right" [x'; zero]).
Proof.
  cbv zeta.
  unfold operator_shl, operator_shr, TVM_INDEX_CONST_PROPAGATION,
    BinaryOpMatchTypes.
  cbn.
  rewrite (builtin_not_registered kInt eq_refl).
  cbn.
  destruct (IsIndexType (Int 32 1)); split; reflexivity.
Qed.

(** *** isnan, isinf, isfinite *)

(** C9 (amended): on an operand of integer or unsigned kind [isnan]
    and [isinf] return the boolean constant false of the operand's
    lane count.  [isfinite] negates and conjoins them: it returns
    the constant true where the folding engine folds [!false] to true
    and [true && true] to true, as it does on the literals of a scalar
    operand, and the unfolded [And (Not false) (Not false)] where the
    engine folds neither, as on the broadcast constants of a vector
    operand.  On a symbolic scalar float operand of 32 or 64 bits
    [isnan] is the [tir.isnan] call, [isinf] is built as
    [abs(x) == infinity(dtype) && !isnan(x)], that is
    [And (EQ (fabs x) inf) (Not (isnan x))] when nothing folds, and
    [isfinite] as [!isinf(x) && !isnan(x)] over these. *)
Theorem classification_builders (x : PrimExpr) :
  (is_int (dtype x) || is_uint (dtype x) = true ->
   isnan x = make_const (Bool (lanes (dtype x))) (Z.b2z false) /\
   isinf x = make_const (Bool (lanes (dtype x))) (Z.b2z false)) /\
  (is_int (dtype x) || is_uint (dtype x) = true ->
   forall F T,
     make_const (Bool (lanes (dtype x))) (Z.b2z false) = Ok F ->
     make_const (Bool (lanes (dtype x))) (Z.b2z true) = Ok T ->
     TryConstFoldNot F = Some T ->
     TryConstFold And T T = Some T ->
     isfinite x = Ok T) /\
  (is_int (dtype x) || is_uint (dtype x) = true ->
   forall F,
     make_const (Bool (lanes (dtype x))) (Z.b2z false) = Ok F ->
     TryConstFoldNot F = None ->
     TryConstFold And (Not F) (Not F) = None ->
     isfinite x = Ok (BinaryOp And (Not F) (Not F))) /\
  (is_float (dtype x) = true -> is_literal x = false ->
   lanes (dtype x) = 1 -> bits (dtype x) = 32 \/ bits (dtype x) = 64 ->
   let ax := Call (dtype x) "tir.fabs" [x] in
   let infX := FloatImm (dtype x) dbl_infinity in
   let nx := Call (Bool (lanes (dtype x))) "tir.isnan" [x] in
   let ix := BinaryOp And (BinaryOp EQ ax infX) (Not nx) in
   TryConstFold EQ ax infX = None ->
   TryConstFoldNot nx = None ->
   TryConstFold And (BinaryOp EQ ax infX) (Not nx) = None ->
   isnan x = Ok nx /\
   abs x = Ok ax /\
   infinity (dtype x) = Ok infX /\
   isinf x = Ok ix /\
   (TryConstFoldNot ix = None ->
    TryConstFold And (Not ix) (Not nx) = None ->
    isfinite x = Ok (BinaryOp And (Not ix) (Not nx)))) /\
  (is_float (dtype x) = true ->
   isinf x =
     (infX <- infinity (dtype x) ;;
      ax <- abs x ;;
      e <- operator_eq ax infX ;;
      n <- isnan x ;;
      nn <- operator_not n ;;
      operator_and e nn)) /\
  isfinite x =
    (i <- isinf x ;;
     ni <- operator_not i ;;
     n <- isnan x ;;
     nn <- operator_not n ;;
     operator_and ni nn).
Proof.
  split; [|split; [|split; [|split; [|split]]]].
  - intro H. unfold isnan, isinf. cbv zeta. rewrite H. split; reflexivity.
  - intros H F T HF HT HN HA.
    unfold isfinite, isinf, isnan. cbv zeta. rewrite H, HF. cbn [bind].
    assert (BF : is_bool (dtype F) = true)
      by now rewrite (make_const_dtype _ _ _ HF).
    assert (BT : is_bool (dtype T) = true)
      by now rewrite (make_const_dtype _ _ _ HT).
    unfold operator_not, operator_and, fold_or_build.
    rewrite BF, HN. cbn [ICHECK bind]. rewrite BT, HA. reflexivity.
  - intros H F HF HN HA.
    unfold isfinite, isinf, isnan. cbv zeta. rewrite H, HF. cbn [bind].
    assert (BF : is_bool (dtype F) = true)
      by now rewrite (make_const_dtype _ _ _ HF).
    unfold operator_not, operator_and, fold_or_build.
    rewrite BF, HN. cbn [ICHECK bind dtype is_bool Bool code]. rewrite HA.
    reflexivity.
  - intros Fx Sx L B ax infX nx ix HE HN HA.
    assert (N : is_int (dtype x) || is_uint (dtype x) = false)
      by exact (float_not_int_or_uint _ Fx).
    assert (I : is_int (dtype x) = false)
      by (apply orb_false_iff in N; tauto).
    assert (B16 : (bits (dtype x) =? 16) = false)
      by (apply Z.eqb_neq; lia).
    assert (Enan : isnan x = Ok nx).
    { unfold isnan. cbv zeta. rewrite N, Fx, B16.
      destruct x; try reflexivity; discriminate. }
    assert (Eabs : abs x = Ok ax).
    { unfold abs. rewrite I, Fx. destruct x; try reflexivity; discriminate. }
    assert (Einf : infinity (dtype x) = Ok infX).
    { unfold infinity. rewrite L, Fx. cbn [Z.eqb Pos.eqb ICHECK bind].
      destruct B as [B | B]; rewrite B; reflexivity. }
    assert (Eeq : operator_eq ax infX = Ok (BinaryOp EQ ax infX)).
    { unfold operator_eq. rewrite promote_same_dtype by reflexivity.
      unfold fold_or_build. now rewrite HE. }
    assert (Enot : operator_not nx = Ok (Not nx)).
    { unfold operator_not. cbn [dtype is_bool Bool code ICHECK bind].
      now rewrite HN. }
    assert (Eisinf : isinf x = Ok ix).
    { unfold isinf. cbv zeta. rewrite N, Fx, Einf. cbn [bind].
      rewrite Eabs. cbn [bind]. rewrite Eeq. cbn [bind].
      rewrite Enan. cbn [bind]. rewrite Enot. cbn [bind].
      unfold operator_and, fold_or_build.
      cbn [dtype is_comparison is_bool Bool code ICHECK bind].
      now rewrite HA. }
    split; [exact Enan|]. split; [exact Eabs|]. split; [exact Einf|].
    split; [exact Eisinf|].
    intros HNi HAi. unfold isfinite.
    rewrite Eisinf. subst ix. cbn [bind].
    unfold operator_not at 1.
    cbn [dtype is_comparison is_bool Bool code ICHECK bind].
    rewrite HNi. cbn [bind]. rewrite Enan. cbn [bind]. rewrite Enot.
    cbn [bind]. unfold operator_and, fold_or_build.
    cbn [dtype is_bool Bool code ICHECK bind]. now rewrite HAi.
  - intro H. unfold isinf. cbv zeta.
    assert (N : is_int (dtype x) || is_uint (dtype x) = false).
    { apply float_not_int_or_uint in H. exact H. }
    now rewrite N, H.
  - reflexivity.
Qed.


(* =============================================================== *)
(** ** Further properties of the builders *)

(** *** The two phases of type promotion *)

Lemma BinaryOpMatchTypes_phases (a b : PrimExpr) :
  BinaryOpMatchTypes a b =
    if DataType_eqb (dtype a) (dtype b) then Ok (a, b)
    else '(l, r) <- match_lanes a b ;; match_kinds l r.
Proof.
  unfold BinaryOpMatchTypes, match_lanes, match_kinds. cbv zeta.
  destruct (DataType_eqb (dtype a) (dtype b)); [reflexivity|].
  destruct ((lanes (dtype a) =? 1) && negb (lanes (dtype b) =? 1));
    [reflexivity|].
  destruct ((lanes (dtype b) =? 1) && negb (lanes (dtype a) =? 1));
    [reflexivity|].
  destruct (ICHECK (lanes (dtype a) =? lanes (dtype b))); reflexivity.
Qed.

(** Lane reconciliation leaves code and bits of both sides alone and
    makes the lanes agree. *)
Lemma match_lanes_spec (a b l r : PrimExpr) :
  match_lanes a b = Ok (l, r) ->
  lanes (dtype l) = lanes (dtype r) /\
  code (dtype l) = code (dtype a) /\ bits (dtype l) = bits (dtype a) /\
  code (dtype r) = code (dtype b) /\ bits (dtype r) = bits (dtype b).
Proof.
  unfold match_lanes. cbv zeta.
  destruct ((lanes (dtype a) =? 1) && negb (lanes (dtype b) =? 1)).
  { intro H. injection H as <- <-. cbn. auto. }
  destruct ((lanes (dtype b) =? 1) && negb (lanes (dtype a) =? 1)).
  { intro H. injection H as <- <-. cbn. auto. }
  destruct (Z.eqb_spec (lanes (dtype a)) (lanes (dtype b))) as [E | E];
    cbn [ICHECK bind]; [|discriminate].
  intro H. injection H as <- <-. auto.
Qed.

Lemma code_is_float (t1 t2 : DataType) :
  code t1 = code t2 -> is_float t1 = is_float t2.
Proof. unfold is_float. now intros ->. Qed.

Lemma code_int_or_uint (t1 t2 : DataType) :
  code t1 = code t2 -> int_or_uint t1 = int_or_uint t2.
Proof. unfold int_or_uint, is_int, is_uint. now intros ->. Qed.

(** Case analysis on the result of a cast inside a promotion. *)
Lemma bind_cast_l (t : DataType) (x r a' b' : PrimExpr) :
  (lhs' <- cast t x ;; Ok (lhs', r)) = Ok (a', b') ->
  cast t x = Ok a' /\ b' = r.
Proof.
  destruct (cast t x) as [y|]; cbn [bind]; [|discriminate].
  intro H. injection H as <- <-. auto.
Qed.

Lemma bind_cast_r (t : DataType) (x l a' b' : PrimExpr) :
  (rhs' <- cast t x ;; Ok (l, rhs')) = Ok (a', b') ->
  cast t x = Ok b' /\ a' = l.
Proof.
  destruct (cast t x) as [y|]; cbn [bind]; [|discriminate].
  intro H. injection H as <- <-. auto.
Qed.

Lemma match_kinds_dtype (l r a' b' : PrimExpr) :
  lanes (dtype l) = lanes (dtype r) ->
  match_kinds l r = Ok (a', b') -> dtype a' = dtype b'.
Proof.
  intro L. unfold match_kinds.
  destruct (DataType_eqb (dtype l) (dtype r)) eqn:E.
  { intro H. injection H as <- <-. now apply DataType_eqb_eq. }
  destruct (negb (is_float (dtype l)) &&
            (is_float (dtype r) || GetTypeRegistered (code (dtype r)))).
  { intro H. apply bind_cast_l in H as [H ->]. now apply cast_dtype in H. }
  destruct ((is_float (dtype l) || GetTypeRegistered (code (dtype l))) &&
            negb (is_float (dtype r))).
  { intro H. apply bind_cast_r in H as [H ->]. apply cast_dtype in H. congruence. }
  destruct ((is_int (dtype l) && is_int (dtype r)) ||
            (is_uint (dtype l) && is_uint (dtype r))).
  { destruct (bits (dtype l) <? bits (dtype r)); intro H.
    - apply bind_cast_l in H as [H ->]. now apply cast_dtype in H.
    - apply bind_cast_r in H as [H ->]. apply cast_dtype in H. congruence. }
  destruct ((is_int (dtype l) && is_uint (dtype r)) ||
            (is_uint (dtype l) && is_int (dtype r))); [|discriminate].
  cbv zeta. intro H. injection H as <- <-.
  rewrite !SimpleCast_dtype. now rewrite L.
Qed.

Lemma BinaryOpMatchTypes_dtype (a b a' b' : PrimExpr) :
  BinaryOpMatchTypes a b = Ok (a', b') -> dtype a' = dtype b'.
Proof.
  rewrite BinaryOpMatchTypes_phases.
  destruct (DataType_eqb (dtype a) (dtype b)) eqn:E.
  { intro H. injection H as <- <-. now apply DataType_eqb_eq. }
  destruct (match_lanes a b) as [[l r]|] eqn:M; cbn [bind]; [|discriminate].
  apply match_lanes_spec in M as [L _].
  now apply match_kinds_dtype.
Qed.

(** X1: type promotion never returns operands of two types: when
    [BinaryOpMatchTypes] succeeds both results have one dtype, and
    operands that already agree come back untouched. *)
Theorem match_types_results_agree (a b : PrimExpr) :
  (forall a' b', BinaryOpMatchTypes a b = Ok (a', b') -> dtype a' = dtype b') /\
  (dtype a = dtype b -> BinaryOpMatchTypes a b = Ok (a, b)).
Proof.
  split.
  - intros a' b'. apply BinaryOpMatchTypes_dtype.
  - intro H. rewrite BinaryOpMatchTypes_phases, H, DataType_eqb_refl.
    reflexivity.
Qed.

(** X2: two float operands of different bit widths cannot be
    promoted: [BinaryOpMatchTypes] aborts, float being cast neither up
    nor down, and so does every operator that promotes first. *)
Theorem match_types_float_widths_abort (a b : PrimExpr) :
  is_float (dtype a) = true -> is_float (dtype b) = true ->
  bits (dtype a) <> bits (dtype b) ->
  BinaryOpMatchTypes a b = Fatal /\
  (forall op, promote_fold_build op a b = Fatal) /\
  pow a b = Fatal /\ fmod a b = Fatal.
Proof.
  intros Fa Fb Hb.
  assert (K : BinaryOpMatchTypes a b = Fatal).
  { rewrite BinaryOpMatchTypes_phases.
    rewrite DataType_eqb_neq by congruence.
    destruct (match_lanes a b) as [[l r]|] eqn:M; cbn [bind]; [|reflexivity].
    apply match_lanes_spec in M as (_ & Cl & Bl & Cr & Br).
    unfold match_kinds.
    rewrite DataType_eqb_neq by congruence.
    rewrite (code_is_float _ _ Cl), (code_is_float _ _ Cr), Fa, Fb.
    cbn [negb andb orb].
    unfold is_int, is_uint. rewrite Cl, Cr.
    unfold is_float in Fa, Fb.
    destruct (code (dtype a)); try discriminate.
    destruct (code (dtype b)); try discriminate.
    reflexivity. }
  conj_split.
  - exact K.
  - intro op. unfold promote_fold_build. now rewrite K.
  - unfold pow, float_call. now rewrite K.
  - unfold fmod, float_call. now rewrite K.
Qed.


Lemma match_lanes_equal (a b : PrimExpr) :
  lanes (dtype a) = lanes (dtype b) -> match_lanes a b = Ok (a, b).
Proof.
  intro L. unfold match_lanes. cbv zeta. rewrite L, Z.eqb_refl.
  now destruct (lanes (dtype b) =? 1).
Qed.

Lemma match_types_equal_lanes (a b : PrimExpr) :
  dtype a <> dtype b -> lanes (dtype a) = lanes (dtype b) ->
  BinaryOpMatchTypes a b = match_kinds a b.
Proof.
  intros N L. rewrite BinaryOpMatchTypes_phases, DataType_eqb_neq by assumption.
  now rewrite match_lanes_equal.
Qed.

Lemma match_types_non_float_with_float (a b : PrimExpr) :
  lanes (dtype a) = lanes (dtype b) ->
  is_float (dtype a) = false -> is_float (dtype b) = true ->
  BinaryOpMatchTypes a b = (a' <- cast (dtype b) a ;; Ok (a', b)).
Proof.
  intros L Fa Fb.
  rewrite match_types_equal_lanes by (try assumption; congruence).
  unfold match_kinds. rewrite DataType_eqb_neq by congruence.
  now rewrite Fa, Fb.
Qed.

Lemma match_types_float_with_non_float (a b : PrimExpr) :
  lanes (dtype a) = lanes (dtype b) ->
  is_float (dtype a) = true -> is_float (dtype b) = false ->
  BinaryOpMatchTypes a b = (b' <- cast (dtype a) b ;; Ok (a, b')).
Proof.
  intros L Fa Fb.
  rewrite match_types_equal_lanes by (try assumption; congruence).
  unfold match_kinds. rewrite DataType_eqb_neq by congruence.
  now rewrite Fa, Fb.
Qed.

(** X3: with equal lanes, promotion rewrites one side only and
    leaves the other as it is: of two signed (or two unsigned)
    integers the narrower is cast to the wider type, and of a float
    and a non-float operand the non-float one is cast to the float
    type. *)
Theorem match_types_casts_one_side (a b : PrimExpr) :
  lanes (dtype a) = lanes (dtype b) ->
  ((is_int (dtype a) && is_int (dtype b)) ||
   (is_uint (dtype a) && is_uint (dtype b)) = true ->
   (bits (dtype a) < bits (dtype b) ->
    BinaryOpMatchTypes a b = (a' <- cast (dtype b) a ;; Ok (a', b))) /\
   (bits (dtype b) < bits (dtype a) ->
    BinaryOpMatchTypes a b = (b' <- cast (dtype a) b ;; Ok (a, b')))) /\
  (is_float (dtype a) = false -> is_float (dtype b) = true ->
   BinaryOpMatchTypes a b = (a' <- cast (dtype b) a ;; Ok (a', b))) /\
  (is_float (dtype a) = true -> is_float (dtype b) = false ->
   BinaryOpMatchTypes a b = (b' <- cast (dtype a) b ;; Ok (a, b'))).
Proof.
  intro L. split; [intro S; split; intro B | split].
  - rewrite match_types_equal_lanes by (try assumption; intro E; rewrite E in B; lia).
    unfold match_kinds. rewrite DataType_eqb_neq by (intro E; rewrite E in B; lia).
    rewrite S.
    assert (Ra : GetTypeRegistered (code (dtype a)) = false).
    { apply builtin_not_registered. unfold is_int, is_uint in S.
      destruct (code (dtype a)); try reflexivity; simpl in S; discriminate. }
    assert (Rb : GetTypeRegistered (code (dtype b)) = false).
    { apply builtin_not_registered. unfold is_int, is_uint in S.
      destruct (code (dtype a)), (code (dtype b));
        try reflexivity; simpl in S; discriminate. }
    rewrite Ra, Rb.
    assert (Fa : is_float (dtype a) = false).
    { unfold is_float, is_int, is_uint in *.
      destruct (code (dtype a)); try reflexivity; simpl in S; discriminate. }
    assert (Fb : is_float (dtype b) = false).
    { unfold is_float, is_int, is_uint in *.
      destruct (code (dtype a)), (code (dtype b));
        try reflexivity; simpl in S; discriminate. }
    rewrite Fa, Fb. cbn [negb andb orb].
    destruct (Z.ltb_spec (bits (dtype a)) (bits (dtype b))); [reflexivity | lia].
  - rewrite match_types_equal_lanes by (try assumption; intro E; rewrite E in B; lia).
    unfold match_kinds. rewrite DataType_eqb_neq by (intro E; rewrite E in B; lia).
    rewrite S.
    assert (Ra : GetTypeRegistered (code (dtype a)) = false).
    { apply builtin_not_registered. unfold is_int, is_uint in S.
      destruct (code (dtype a)); try reflexivity; simpl in S; discriminate. }
    assert (Rb : GetTypeRegistered (code (dtype b)) = false).
    { apply builtin_not_registered. unfold is_int, is_uint in S.
      destruct (code (dtype a)), (code (dtype b));
        try reflexivity; simpl in S; discriminate. }
    rewrite Ra, Rb.
    assert (Fa : is_float (dtype a) = false).
    { unfold is_float, is_int, is_uint in *.
      destruct (code (dtype a)); try reflexivity; simpl in S; discriminate. }
    assert (Fb : is_float (dtype b) = false).
    { unfold is_float, is_int, is_uint in *.
      destruct (code (dtype a)), (code (dtype b));
        try reflexivity; simpl in S; discriminate. }
    rewrite Fa, Fb. cbn [negb andb orb].
    destruct (Z.ltb_spec (bits (dtype a)) (bits (dtype b))); [lia | reflexivity].
  - now apply match_types_non_float_with_float.
  - now apply match_types_float_with_non_float.
Qed.

(** X4: an arithmetic or comparison operator ([+], [-], [*],
    [div], [truncmod], [==], [<], ...) that returns returns either
    what the folding engine made of the promoted operands or a node
    over them; the two operands of that node have one dtype, which is
    the node's dtype for an arithmetic operator, while a comparison
    is boolean with the operands' lanes. *)
Theorem promoted_node_is_well_typed (op : BinOp) (a b r : PrimExpr) :
  promote_fold_build op a b = Ok r ->
  exists a' b',
    BinaryOpMatchTypes a b = Ok (a', b') /\
    dtype a' = dtype b' /\
    (forall f, TryConstFold op a' b' = Some f -> r = f) /\
    (TryConstFold op a' b' = None ->
     r = BinaryOp op a' b' /\
     dtype r = if is_comparison op then Bool (lanes (dtype a')) else dtype a').
Proof.
  unfold promote_fold_build, fold_or_build.
  destruct (BinaryOpMatchTypes a b) as [[a' b']|] eqn:M; cbn [bind];
    [|discriminate].
  intro H. injection H as <-. exists a', b'.
  split; [reflexivity|]. split; [now apply BinaryOpMatchTypes_dtype in M|].
  split.
  - intros f F. now rewrite F.
  - intro F. rewrite F. split; reflexivity.
Qed.

(** *** pow and fmod *)

Lemma match_kinds_keeps_non_float (l r a' b' : PrimExpr) :
  is_float (dtype l) = false -> is_float (dtype r) = false ->
  match_kinds l r = Ok (a', b') -> is_float (dtype a') = false.
Proof.
  intros Fl Fr. unfold match_kinds. rewrite Fl, Fr. cbn [negb andb orb].
  destruct (DataType_eqb (dtype l) (dtype r)).
  { intro H. now injection H as <- <-. }
  destruct (GetTypeRegistered (code (dtype r))).
  { intro H. apply bind_cast_l in H as [H _]. apply cast_dtype in H.
    now rewrite H. }
  destruct (GetTypeRegistered (code (dtype l)) && true).
  { intro H. apply bind_cast_r in H as [_ ->]. assumption. }
  destruct ((is_int (dtype l) && is_int (dtype r)) ||
            (is_uint (dtype l) && is_uint (dtype r))).
  { destruct (bits (dtype l) <? bits (dtype r)); intro H.
    - apply bind_cast_l in H as [H _]. apply cast_dtype in H. now rewrite H.
    - apply bind_cast_r in H as [_ ->]. assumption. }
  destruct ((is_int (dtype l) && is_uint (dtype r)) ||
            (is_uint (dtype l) && is_int (dtype r))); [|discriminate].
  cbv zeta. intro H. injection H as <- _. now rewrite SimpleCast_dtype.
Qed.

Lemma cast_symbolic_same_lanes (t : DataType) (x : PrimExpr) :
  is_literal x = false -> dtype x <> t -> lanes (dtype x) = lanes t ->
  cast t x = Ok (Cast t x).
Proof.
  intros S N L. unfold cast. rewrite DataType_eqb_neq by assumption.
  destruct (Z.eqb_spec (lanes t) 1) as [E | E].
  { destruct x; try reflexivity; discriminate. }
  rewrite L. apply Z.eqb_neq in E. rewrite E, Z.eqb_refl. reflexivity.
Qed.

(** X5: [pow] and [fmod] check for float only after promotion.  So
    they abort when neither operand is of float kind, but accept one
    float operand next to a symbolic non-float one of the same lanes:
    that one is cast to the float type and the call is built on the
    promoted pair. *)
Theorem pow_fmod_check_after_promotion (x y : PrimExpr) :
  (is_float (dtype x) = false -> is_float (dtype y) = false ->
   pow x y = Fatal /\ fmod x y = Fatal) /\
  (is_literal x = false -> is_float (dtype x) = false ->
   is_float (dtype y) = true -> lanes (dtype x) = lanes (dtype y) ->
   pow x y = Ok (Call (dtype y) "tir.pow" [Cast (dtype y) x; y]) /\
   fmod x y = Ok (Call (dtype y) "tir.fmod" [Cast (dtype y) x; y])) /\
  (is_literal y = false -> is_float (dtype x) = true ->
   is_float (dtype y) = false -> lanes (dtype x) = lanes (dtype y) ->
   pow x y = Ok (Call (dtype x) "tir.pow" [x; Cast (dtype x) y]) /\
   fmod x y = Ok (Call (dtype x) "tir.fmod" [x; Cast (dtype x) y])).
Proof.
  conj_split.
  - intros Fx Fy.
    assert (K : forall name, float_call name x y = Fatal).
    { intro name. unfold float_call.
      destruct (BinaryOpMatchTypes x y) as [[a' b']|] eqn:M; cbn [bind];
        [|reflexivity].
      assert (F : is_float (dtype a') = false).
      { rewrite BinaryOpMatchTypes_phases in M.
        destruct (DataType_eqb (dtype x) (dtype y)).
        - now injection M as <- <-.
        - destruct (match_lanes x y) as [[l r]|] eqn:E; cbn [bind] in M;
            [|discriminate].
          apply match_lanes_spec in E as (_ & Cl & _ & Cr & _).
          apply (match_kinds_keeps_non_float l r a' b'); try assumption.
          + now rewrite (code_is_float _ _ Cl).
          + now rewrite (code_is_float _ _ Cr). }
      now rewrite F. }
    split; apply K.
  - intros S Fx Fy L.
    assert (N : dtype x <> dtype y) by congruence.
    unfold pow, fmod, float_call.
    rewrite (match_types_non_float_with_float x y L Fx Fy).
    rewrite cast_symbolic_same_lanes by assumption.
    cbn [bind dtype]. rewrite Fy. split; reflexivity.
  - intros S Fx Fy L.
    assert (N : dtype y <> dtype x) by congruence.
    unfold pow, fmod, float_call.
    rewrite (match_types_float_with_non_float x y L Fx Fy).
    rewrite cast_symbolic_same_lanes by (try assumption; now symmetry).
    cbn [bind]. rewrite Fx. split; reflexivity.
Qed.


(** *** Builders on integers only *)

Lemma match_kinds_int_kinds (l r a' b' : PrimExpr) :
  int_or_uint (dtype l) = true -> int_or_uint (dtype r) = true ->
  match_kinds l r = Ok (a', b') -> int_or_uint (dtype a') = true.
Proof.
  intros Il Ir.
  assert (Fl : is_float (dtype l) = false).
  { unfold int_or_uint, is_int, is_uint, is_float in *.
    now destruct (code (dtype l)). }
  assert (Fr : is_float (dtype r) = false).
  { unfold int_or_uint, is_int, is_uint, is_float in *.
    now destruct (code (dtype r)). }
  assert (Rl : GetTypeRegistered (code (dtype l)) = false).
  { apply builtin_not_registered.
    unfold int_or_uint, is_int, is_uint in Il. now destruct (code (dtype l)). }
  assert (Rr : GetTypeRegistered (code (dtype r)) = false).
  { apply builtin_not_registered.
    unfold int_or_uint, is_int, is_uint in Ir. now destruct (code (dtype r)). }
  unfold match_kinds. rewrite Fl, Fr, Rl, Rr. cbn [negb andb orb].
  destruct (DataType_eqb (dtype l) (dtype r)).
  { intro H. now injection H as <- <-. }
  destruct ((is_int (dtype l) && is_int (dtype r)) ||
            (is_uint (dtype l) && is_uint (dtype r))).
  { destruct (bits (dtype l) <? bits (dtype r)); intro H.
    - apply bind_cast_l in H as [H _]. apply cast_dtype in H. now rewrite H.
    - apply bind_cast_r in H as [_ ->]. assumption. }
  destruct ((is_int (dtype l) && is_uint (dtype r)) ||
            (is_uint (dtype l) && is_int (dtype r))); [|discriminate].
  cbv zeta. intro H. injection H as <- _. now rewrite SimpleCast_dtype.
Qed.

Lemma match_types_int_kinds (a b a' b' : PrimExpr) :
  int_or_uint (dtype a) = true -> int_or_uint (dtype b) = true ->
  BinaryOpMatchTypes a b = Ok (a', b') -> int_or_uint (dtype a') = true.
Proof.
  intros Ia Ib. rewrite BinaryOpMatchTypes_phases.
  destruct (DataType_eqb (dtype a) (dtype b)).
  { intro H. now injection H as <- <-. }
  destruct (match_lanes a b) as [[l r]|] eqn:E; cbn [bind]; [|discriminate].
  apply match_lanes_spec in E as (_ & Cl & _ & Cr & _).
  apply match_kinds_int_kinds.
  - now rewrite (code_int_or_uint _ _ Cl).
  - now rewrite (code_int_or_uint _ _ Cr).
Qed.

Lemma int_guard_fails (a b : PrimExpr) (k : result PrimExpr) :
  int_or_uint (dtype a) = false \/ int_or_uint (dtype b) = false ->
  (_ <- ICHECK (int_or_uint (dtype a)) ;;
   _ <- ICHECK (int_or_uint (dtype b)) ;; k) = Fatal.
Proof.
  intros [H | H]; rewrite H; cbn [ICHECK bind]; [reflexivity|].
  now destruct (int_or_uint (dtype a)).
Qed.

Lemma bitwise_op_dtype (f : Z -> Z -> Z) (name : string) (a b r : PrimExpr) :
  bitwise_op f name a b = Ok r -> int_or_uint (dtype r) = true.
Proof.
  unfold bitwise_op, TVM_INDEX_CONST_PROPAGATION, bitwise_body.
  destruct (int_or_uint (dtype a)) eqn:Ia; cbn [ICHECK bind]; [|discriminate].
  destruct (int_or_uint (dtype b)) eqn:Ib; cbn [ICHECK bind]; [|discriminate].
  destruct (BinaryOpMatchTypes a b) as [[a' b']|] eqn:M; cbn [bind];
    [|discriminate].
  pose proof (match_types_int_kinds a b a' b' Ia Ib M) as K.
  destruct (IsIndexType (dtype a') && IsIndexType (dtype b')); cbn [bind].
  - destruct (as_IntImm a'), (as_IntImm b'); cbn [bind];
      intro H; now injection H as <-.
  - intro H. now injection H as <-.
Qed.

Lemma shift_op_dtype (sh : Z -> Z -> Z) (name : string) (a b r : PrimExpr) :
  (_ <- ICHECK (int_or_uint (dtype a)) ;;
   _ <- ICHECK (int_or_uint (dtype b)) ;;
   '(a, b) <- BinaryOpMatchTypes a b ;;
   r <- TVM_INDEX_CONST_PROPAGATION a b (shift_body sh a b) ;;
   match r with
   | Some ret => Ok ret
   | None => Ok (Call (dtype a) name [a; b])
   end) = Ok r ->
  int_or_uint (dtype r) = true.
Proof.
  unfold TVM_INDEX_CONST_PROPAGATION, shift_body.
  destruct (int_or_uint (dtype a)) eqn:Ia; cbn [ICHECK bind]; [|discriminate].
  destruct (int_or_uint (dtype b)) eqn:Ib; cbn [ICHECK bind]; [|discriminate].
  destruct (BinaryOpMatchTypes a b) as [[a' b']|] eqn:M; cbn [bind];
    [|discriminate].
  pose proof (match_types_int_kinds a b a' b' Ia Ib M) as K.
  destruct (IsIndexType (dtype a') && IsIndexType (dtype b')); cbn [bind].
  - destruct (as_IntImm b') as [vb|].
    + destruct (ICHECK ((0 <=? vb) && (vb <? bits (dtype a'))));
        cbn [bind]; [|discriminate].
      destruct (as_IntImm a'); [cbn [bind]; intro H; now injection H as <-|].
      destruct (vb =? 0); cbn [bind]; intro H; now injection H as <-.
    + cbn [bind]. destruct (as_IntImm a'); cbn [bind];
        intro H; now injection H as <-.
  - intro H. now injection H as <-.
Qed.

(** X6: the builders that take integers only -- [floordiv],
    [floormod], [indexdiv], [indexmod], the shifts and the bitwise
    operators -- abort as soon as one operand is not of integer or
    unsigned kind, and what a shift or a bitwise operator returns is
    of integer or unsigned kind again, folded or not. *)
Theorem integer_builders_stay_integer (a b : PrimExpr) :
  (int_or_uint (dtype a) = false \/ int_or_uint (dtype b) = false ->
   floordiv a b = Fatal /\ floormod a b = Fatal /\
   indexdiv a b = Fatal /\ indexmod a b = Fatal /\
   operator_shl a b = Fatal /\ operator_shr a b = Fatal /\
   operator_bitand a b = Fatal /\ operator_bitor a b = Fatal /\
   operator_bitxor a b = Fatal) /\
  (int_or_uint (dtype a) = false -> operator_bitnot a = Fatal) /\
  (forall r,
     operator_shl a b = Ok r \/ operator_shr a b = Ok r \/
     operator_bitand a b = Ok r \/ operator_bitor a b = Ok r \/
     operator_bitxor a b = Ok r \/ operator_bitnot a = Ok r ->
     int_or_uint (dtype r) = true).
Proof.
  conj_split.
  - intro H.
    unfold indexdiv, indexmod, floordiv, floormod, operator_shl, operator_shr,
      operator_bitand, operator_bitor, operator_bitxor, bitwise_op.
    rewrite !(int_guard_fails a b _ H). conj_split; reflexivity.
  - intro H. unfold operator_bitnot. now rewrite H.
  - intros r [H | [H | [H | [H | [H | H]]]]].
    + now apply shift_op_dtype in H.
    + now apply shift_op_dtype in H.
    + now apply bitwise_op_dtype in H.
    + now apply bitwise_op_dtype in H.
    + now apply bitwise_op_dtype in H.
    + unfold operator_bitnot in H.
      destruct (int_or_uint (dtype a)) eqn:Ia; cbn [ICHECK bind] in H;
        [|discriminate].
      now injection H as <-.
Qed.

(** *** if_then_else *)

(** X7: [if_then_else] wants a scalar boolean condition and aborts
    on any other; it promotes the two branches against each other
    first, so a failed promotion aborts even under a literal
    condition; and a literal condition selects the promoted true
    branch when non-zero and the promoted false branch when zero,
    without a call node -- two results of one dtype. *)
Theorem if_then_else_literal_condition (cond tv fv : PrimExpr) :
  (dtype cond <> Bool 1 -> if_then_else cond tv fv = Fatal) /\
  (BinaryOpMatchTypes tv fv = Fatal -> if_then_else cond tv fv = Fatal) /\
  (forall v tv' fv',
     cond = IntImm (Bool 1) v ->
     BinaryOpMatchTypes tv fv = Ok (tv', fv') ->
     if_then_else cond tv fv = Ok (if v =? 0 then fv' else tv') /\
     dtype tv' = dtype fv') /\
  (forall v, cond = IntImm (Bool 1) v -> dtype tv = dtype fv ->
     if_then_else cond tv fv = Ok (if v =? 0 then fv else tv)) /\
  (forall tv' fv',
     dtype cond = Bool 1 -> as_IntImm cond = None ->
     BinaryOpMatchTypes tv fv = Ok (tv', fv') ->
     if_then_else cond tv fv =
       Ok (Call (dtype tv') "tir.if_then_else" [cond; tv'; fv'])).
Proof.
  assert (L : forall v tv' fv',
             cond = IntImm (Bool 1) v ->
             BinaryOpMatchTypes tv fv = Ok (tv', fv') ->
             if_then_else cond tv fv = Ok (if v =? 0 then fv' else tv')).
  { intros v tv' fv' -> M. unfold if_then_else. cbn [dtype].
    rewrite DataType_eqb_refl, M. cbn [ICHECK bind].
    now destruct (v =? 0). }
  conj_split.
  - intro H. unfold if_then_else. now rewrite DataType_eqb_neq.
  - intro H. unfold if_then_else. rewrite H.
    now destruct (ICHECK (DataType_eqb (dtype cond) (Bool 1))).
  - intros v tv' fv' Hc M. split; [now apply L|].
    now apply BinaryOpMatchTypes_dtype in M.
  - intros v Hc E. apply L; [assumption|].
    rewrite BinaryOpMatchTypes_phases, E, DataType_eqb_refl. reflexivity.
  - intros tv' fv' Hc Hs M. unfold if_then_else.
    rewrite Hc, DataType_eqb_refl, M. cbn [ICHECK bind].
    destruct cond; try reflexivity. discriminate.
Qed.

(** *** reinterpret and cast on symbolic operands *)

(** X8: [reinterpret] never aborts and never folds: an operand of
    another type, literal or not, is wrapped in a [tir.reinterpret]
    call of the target type; the result has the target type, so
    reinterpreting twice is reinterpreting once. *)
Theorem reinterpret_wraps_once (t : DataType) (x : PrimExpr) :
  (dtype x <> t -> reinterpret t x = Ok (Call t "tir.reinterpret" [x])) /\
  (exists y, reinterpret t x = Ok y /\ dtype y = t /\ reinterpret t y = Ok y) /\
  (y <- reinterpret t x ;; reinterpret t y) = reinterpret t x.
Proof.
  unfold reinterpret.
  destruct (DataType_eqb (dtype x) t) eqn:E.
  - apply DataType_eqb_eq in E. conj_split.
    + intro N. contradiction.
    + exists x. rewrite <- E, DataType_eqb_refl. auto.
    + cbn [bind]. now rewrite <- E, DataType_eqb_refl.
  - conj_split.
    + reflexivity.
    + eexists. split; [reflexivity|]. cbn [dtype].
      rewrite DataType_eqb_refl. auto.
    + cbn [bind dtype]. now rewrite DataType_eqb_refl.
Qed.

(** X9: on a symbolic (non-literal) operand [cast] builds no
    constant: it aborts when operand and target are both vectors of
    different lane counts, and whatever it returns is an expression
    of the target type -- the operand itself, a cast node, a
    broadcast of the operand, or a broadcast of a scalar cast.  (The
    checks the node constructors make on their own are not part of
    [cast].) *)
Theorem cast_symbolic_operand (t : DataType) (x : PrimExpr) :
  is_literal x = false ->
  (dtype x <> t /\ lanes t <> 1 /\ lanes (dtype x) <> 1 /\
   lanes (dtype x) <> lanes t ->
   cast t x = Fatal) /\
  (forall y, cast t x = Ok y ->
     dtype y = t /\
     (y = x \/ y = Cast t x \/
      y = Broadcast x (lanes t) \/
      y = Broadcast (Cast (element_of t) x) (lanes t))).
Proof.
  intro S. unfold cast.
  destruct (DataType_eqb (dtype x) t) eqn:E.
  { apply DataType_eqb_eq in E. split.
    - intros [N _]; contradiction.
    - intros y H. injection H as <-. auto. }
  assert (N : dtype x <> t).
  { intro H. apply DataType_eqb_eq in H. congruence. }
  destruct (Z.eqb_spec (lanes t) 1) as [L1 | L1].
  { assert (C : match x with
                | IntImm _ v => make_const t v
                | FloatImm _ v => make_const_fp t v
                | _ => Ok (Cast t x)
                end = Ok (Cast t x)) by (destruct x; try reflexivity; discriminate).
    rewrite C. split.
    - intros (_ & K & _); contradiction.
    - intros y H. injection H as <-. auto. }
  destruct (Z.eqb_spec (lanes (dtype x)) 1) as [L2 | L2].
  { destruct (DataType_eqb (dtype x) (element_of t)) eqn:V; cbn [negb bind].
    - split.
      + intros (_ & _ & K & _); contradiction.
      + intros y H. injection H as <-. split; [|auto].
        cbn [dtype]. apply DataType_eqb_eq in V. rewrite V.
        apply with_lanes_element_of.
    - assert (C : match x with
                  | IntImm _ v => make_const (element_of t) v
                  | FloatImm _ v => make_const_fp (element_of t) v
                  | _ => Ok (Cast (element_of t) x)
                  end = Ok (Cast (element_of t) x))
        by (destruct x; try reflexivity; discriminate).
      rewrite C. cbn [bind]. split.
      + intros (_ & _ & K & _); contradiction.
      + intros y H. injection H as <-. split; [|auto].
        cbn [dtype]. apply with_lanes_element_of. }
  destruct (Z.eqb_spec (lanes (dtype x)) (lanes t)) as [L3 | L3];
    cbn [ICHECK bind].
  - split.
    + intros (_ & _ & _ & K); contradiction.
    + intros y H. injection H as <-. auto.
  - split.
    + reflexivity.
    + discriminate.
Qed.


(** *** Negation and abs on literals *)

Lemma to_int64_neg_neg (v : Z) :
  - 2 ^ 63 <= v < 2 ^ 63 -> to_int64 (- to_int64 (- v)) = v.
Proof.
  intro H. destruct (Z.eq_dec v (- 2 ^ 63)) as [-> | N].
  - reflexivity.
  - rewrite (to_int64_small (- v)) by lia.
    rewrite Z.opp_involutive. now apply to_int64_small.
Qed.

Lemma dbl_neg_involutive (d : double) : dbl_neg (dbl_neg d) = d.
Proof. destruct d; cbn; now rewrite ?negb_involutive. Qed.

Lemma std_fabs_idempotent (d : double) : std_fabs (std_fabs d) = std_fabs d.
Proof. now destruct d. Qed.

(** X10: unary minus on a literal of a signed integer or float
    scalar type negates the payload in place, keeping the dtype, and
    is its own inverse on every [int64] payload and every double; the
    most negative [int64] is its own negation.  (Literals of
    unsigned type are left out: the negated payload would be handed
    to the literal's constructor, which refuses a negative unsigned
    value.) *)
Theorem operator_neg_literal_involution (t : DataType) :
  lanes t = 1 ->
  (is_int t = true -> forall v, - 2 ^ 63 <= v < 2 ^ 63 ->
     (y <- operator_neg (IntImm t v) ;; operator_neg y) = Ok (IntImm t v)) /\
  (is_float t = true -> forall d,
     (y <- operator_neg (FloatImm t d) ;; operator_neg y) = Ok (FloatImm t d)) /\
  (is_int t = true -> forall v, - 2 ^ 63 < v < 2 ^ 63 ->
     operator_neg (IntImm t v) = Ok (IntImm t (- v))) /\
  (is_int t = true ->
   operator_neg (IntImm t INT64_MIN) = Ok (IntImm t INT64_MIN)).
Proof.
  intros _. conj_split.
  - intros _ v H. cbn. now rewrite to_int64_neg_neg.
  - intros _ d. cbn. now rewrite dbl_neg_involutive.
  - intros _ v H. cbn. now rewrite to_int64_small by lia.
  - reflexivity.
Qed.

(** X11: [abs] of a signed integer literal is the literal of the
    absolute value, except for the most negative [int64], which comes
    back unchanged and negative; an unsigned operand is returned as it
    is; an operand that is neither integer nor float aborts; and on
    well-typed literals (no integer literal of float type, no float
    literal of integer type) [abs] is idempotent. *)
Theorem abs_on_literals (t : DataType) :
  (is_int t = true -> forall v, - 2 ^ 63 < v < 2 ^ 63 ->
     abs (IntImm t v) = Ok (IntImm t (Z.abs v))) /\
  (is_int t = true -> abs (IntImm t INT64_MIN) = Ok (IntImm t INT64_MIN)) /\
  (forall x, is_uint (dtype x) = true -> abs x = Ok x) /\
  (forall x, is_int (dtype x) = false -> is_float (dtype x) = false ->
     is_uint (dtype x) = false -> abs x = Fatal) /\
  (is_float t = false -> forall v, - 2 ^ 63 <= v < 2 ^ 63 ->
     (y <- abs (IntImm t v) ;; abs y) = abs (IntImm t v)) /\
  (is_int t = false -> forall d,
     (y <- abs (FloatImm t d) ;; abs y) = abs (FloatImm t d)).
Proof.
  conj_split.
  - intros I v H. unfold abs. cbn [dtype]. rewrite I.
    now rewrite to_int64_small by lia.
  - intro I. unfold abs. cbn [dtype]. now rewrite I.
  - intros x U. unfold abs.
    assert (I : is_int (dtype x) = false)
      by (unfold is_int, is_uint in *; now destruct (code (dtype x))).
    assert (F : is_float (dtype x) = false)
      by (unfold is_float, is_uint in *; now destruct (code (dtype x))).
    now rewrite I, F, U.
  - intros x I F U. unfold abs. now rewrite I, F, U.
  - intros F v H. unfold abs. cbn [dtype]. rewrite F.
    destruct (is_int t) eqn:I.
    + cbn [bind dtype]. rewrite I. do 2 f_equal.
      destruct (Z.eq_dec v (- 2 ^ 63)) as [-> | N]; [reflexivity|].
      rewrite (to_int64_small (Z.abs v)) by lia.
      rewrite Z.abs_idemp. now rewrite to_int64_small by lia.
    + destruct (is_uint t) eqn:U; [|reflexivity].
      cbn [bind dtype]. now rewrite I, F, U.
  - intros I d. unfold abs. cbn [dtype]. rewrite I.
    destruct (is_float t) eqn:F.
    + cbn [bind dtype]. now rewrite I, F, std_fabs_idempotent.
    + destruct (is_uint t) eqn:U; [|reflexivity].
      cbn [bind dtype]. now rewrite I, F, U.
Qed.

(** *** Shifts and bitwise operators on literals *)

Lemma shift_literals (sh : Z -> Z -> Z) (name : string) (t : DataType) (v k : Z) :
  int_or_uint t = true -> IsIndexType t = true -> 0 <= k < bits t ->
  (_ <- ICHECK (int_or_uint (dtype (IntImm t v))) ;;
   _ <- ICHECK (int_or_uint (dtype (IntImm t k))) ;;
   '(a, b) <- BinaryOpMatchTypes (IntImm t v) (IntImm t k) ;;
   r <- TVM_INDEX_CONST_PROPAGATION a b (shift_body sh a b) ;;
   match r with
   | Some ret => Ok ret
   | None => Ok (Call (dtype a) name [a; b])
   end) = Ok (IntImm t (sh v k)).
Proof.
  intros I G K.
  unfold BinaryOpMatchTypes, TVM_INDEX_CONST_PROPAGATION, shift_body.
  cbn [dtype as_IntImm]. rewrite I, DataType_eqb_refl.
  cbn [ICHECK bind dtype as_IntImm]. rewrite G. cbn [andb bind].
  destruct (Z.leb_spec 0 k); [|lia].
  destruct (Z.ltb_spec k (bits t)); [|lia].
  reflexivity.
Qed.

(** X12: on two literals of one index type, with the amount in
    range, [>>] is the floor division of the payload by [2^k] (it
    rounds a negative payload down, not toward zero), [<<] the
    multiplication by [2^k] as long as the product is an [int64], and
    shifting left and then right by the same amount gives the literal
    back. *)
Theorem shift_literals_round_trip (t : DataType) (v k : Z) :
  int_or_uint t = true -> IsIndexType t = true -> 0 <= k < bits t ->
  operator_shr (IntImm t v) (IntImm t k) = Ok (IntImm t (v / 2 ^ k)) /\
  (- 2 ^ 63 <= v * 2 ^ k < 2 ^ 63 ->
   operator_shl (IntImm t v) (IntImm t k) = Ok (IntImm t (v * 2 ^ k)) /\
   (y <- operator_shl (IntImm t v) (IntImm t k) ;; operator_shr y (IntImm t k))
     = Ok (IntImm t v)).
Proof.
  intros I G K.
  assert (R : forall w, operator_shr (IntImm t w) (IntImm t k) =
                        Ok (IntImm t (w / 2 ^ k))).
  { intro w. unfold operator_shr.
    rewrite (shift_literals _ _ t w k I G K).
    now rewrite Z.shiftr_div_pow2 by lia. }
  split; [apply R|].
  intro H.
  assert (L : operator_shl (IntImm t v) (IntImm t k) = Ok (IntImm t (v * 2 ^ k))).
  { unfold operator_shl.
    rewrite (shift_literals _ _ t v k I G K).
    rewrite Z.shiftl_mul_pow2 by lia. now rewrite to_int64_small. }
  split; [exact L|].
  rewrite L. cbn [bind]. rewrite R.
  rewrite Z.div_mul; [reflexivity|].
  apply Z.pow_nonzero; lia.
Qed.

Lemma bitwise_literals (f : Z -> Z -> Z) (name : string) (t : DataType) (va vb : Z) :
  int_or_uint t = true ->
  bitwise_op f name (IntImm t va) (IntImm t vb) =
    Ok (if IsIndexType t then IntImm t (f va vb)
        else Call t name [IntImm t va; IntImm t vb]).
Proof.
  intro I.
  unfold bitwise_op, BinaryOpMatchTypes, TVM_INDEX_CONST_PROPAGATION,
    bitwise_body.
  cbn [dtype as_IntImm]. rewrite I, DataType_eqb_refl.
  cbn [ICHECK bind dtype as_IntImm]. now destruct (IsIndexType t).
Qed.

(** X13: on two literals of one index type [&], [|] and [^] fold
    to the literal of the bitwise operation on the payloads, so there
    they commute, [x & x] and [x | x] are [x] and [x ^ x] is [0]; on
    literals of an integer type that is no index type nothing is
    folded and the call node is built. *)
Theorem bitwise_literals_fold (t : DataType) (va vb : Z) :
  int_or_uint t = true ->
  (IsIndexType t = true ->
   (operator_bitand (IntImm t va) (IntImm t vb) = Ok (IntImm t (Z.land va vb)) /\
    operator_bitor (IntImm t va) (IntImm t vb) = Ok (IntImm t (Z.lor va vb)) /\
    operator_bitxor (IntImm t va) (IntImm t vb) = Ok (IntImm t (Z.lxor va vb))) /\
   (operator_bitand (IntImm t va) (IntImm t vb) =
      operator_bitand (IntImm t vb) (IntImm t va) /\
    operator_bitor (IntImm t va) (IntImm t vb) =
      operator_bitor (IntImm t vb) (IntImm t va) /\
    operator_bitxor (IntImm t va) (IntImm t vb) =
      operator_bitxor (IntImm t vb) (IntImm t va)) /\
   (operator_bitand (IntImm t va) (IntImm t va) = Ok (IntImm t va) /\
    operator_bitor (IntImm t va) (IntImm t va) = Ok (IntImm t va) /\
    operator_bitxor (IntImm t va) (IntImm t va) = Ok (IntImm t 0))) /\
  (IsIndexType t = false ->
   operator_bitand (IntImm t va) (IntImm t vb) =
     Ok (Call t "tir.bitwise_and" [IntImm t va; IntImm t vb]) /\
   operator_bitor (IntImm t va) (IntImm t vb) =
     Ok (Call t "tir.bitwise_or" [IntImm t va; IntImm t vb]) /\
   operator_bitxor (IntImm t va) (IntImm t vb) =
     Ok (Call t "tir.bitwise_xor" [IntImm t va; IntImm t vb])).
Proof.
  intro I. unfold operator_bitand, operator_bitor, operator_bitxor.
  split; intro G; rewrite !(bitwise_literals _ _ t _ _ I), G.
  - conj_split; try reflexivity.
    + now rewrite Z.land_comm.
    + now rewrite Z.lor_comm.
    + now rewrite Z.lxor_comm.
    + now rewrite Z.land_diag.
    + now rewrite Z.lor_diag.
    + now rewrite Z.lxor_nilpotent.
  - conj_split; reflexivity.
Qed.


(** *** Reductions *)

Lemma reduction_built (op : BinOp) (idr : result PrimExpr)
    (source : PrimExpr) (rdom : list IterVar) (init : list PrimExpr)
    (r : PrimExpr) :
  (i <- idr ;;
   p <- make_const (Bool 1) (Z.b2z true) ;;
   Ok (Reduce (mkCommReducer [Var "x" (dtype source)] [Var "y" (dtype source)]
                 [BinaryOp op (Var "x" (dtype source)) (Var "y" (dtype source))]
                 [i])
         [source] rdom p 0 init)) = Ok r ->
  exists i p,
    idr = Ok i /\ make_const (Bool 1) (Z.b2z true) = Ok p /\
    r = Reduce (mkCommReducer [Var "x" (dtype source)] [Var "y" (dtype source)]
                  [BinaryOp op (Var "x" (dtype source)) (Var "y" (dtype source))]
                  [i])
          [source] rdom p 0 init.
Proof.
  destruct idr as [i|]; cbn [bind]; [|discriminate].
  destruct (make_const (Bool 1) (Z.b2z true)) as [p|]; cbn [bind];
    [|discriminate].
  intro H. injection H as <-. now exists i, p.
Qed.

Lemma bool_guard (source : PrimExpr) (k : result PrimExpr) (r : PrimExpr) :
  (_ <- ICHECK (is_bool (dtype source)) ;; k) = Ok r -> k = Ok r.
Proof. now destruct (is_bool (dtype source)). Qed.

(** X14: each of the six reductions ([sum], [prod], [all], [any],
    [min], [max]) that returns returns a reduction of one value: one
    left and one right variable, one combine expression and one
    identity element, over the single source, with the constant true
    as predicate and value index 0, and of the source's dtype.  [all]
    and [any] abort on a source that is not boolean.  The identity is
    [make_zero] for [sum], the constant 1 for [prod], true for [all]
    and false for [any]. *)
Theorem reductions_reduce_one_value
    (source : PrimExpr) (rdom : list IterVar) (init : list PrimExpr) :
  (is_bool (dtype source) = false ->
   all_reduction source rdom init = Fatal /\
   any_reduction source rdom init = Fatal) /\
  (forall r,
     sum_reduction source rdom init = Ok r \/
     prod_reduction source rdom init = Ok r \/
     all_reduction source rdom init = Ok r \/
     any_reduction source rdom init = Ok r \/
     min_reduction source rdom init = Ok r \/
     max_reduction source rdom init = Ok r ->
     reducer_arity r = Some (1, 1, 1, 1, 1)%nat /\
     dtype r = dtype source /\
     exists p, make_const (Bool 1) (Z.b2z true) = Ok p /\
               reduce_condition r = Some (p, 0)) /\
  (forall r, sum_reduction source rdom init = Ok r ->
     exists i, make_zero (dtype source) = Ok i /\
               identity_elements r = Some [i]) /\
  (forall r, prod_reduction source rdom init = Ok r ->
     exists i, make_const (dtype source) 1 = Ok i /\
               identity_elements r = Some [i]) /\
  (forall r, all_reduction source rdom init = Ok r ->
     exists i, make_const (dtype source) (Z.b2z true) = Ok i /\
               identity_elements r = Some [i]) /\
  (forall r, any_reduction source rdom init = Ok r ->
     exists i, make_const (dtype source) (Z.b2z false) = Ok i /\
               identity_elements r = Some [i]).
Proof.
  conj_split.
  - intro B. unfold all_reduction, any_reduction. now rewrite B.
  - assert (K : forall op idr r,
               (i <- idr ;;
                p <- make_const (Bool 1) (Z.b2z true) ;;
                Ok (Reduce (mkCommReducer [Var "x" (dtype source)]
                              [Var "y" (dtype source)]
                              [BinaryOp op (Var "x" (dtype source))
                                 (Var "y" (dtype source))] [i])
                      [source] rdom p 0 init)) = Ok r ->
               reducer_arity r = Some (1, 1, 1, 1, 1)%nat /\
               dtype r = dtype source /\
               exists p, make_const (Bool 1) (Z.b2z true) = Ok p /\
                         reduce_condition r = Some (p, 0)).
    { intros op idr r H.
      apply reduction_built in H as (i & p & _ & Hp & ->).
      split; [reflexivity|]. split; [reflexivity|]. now exists p. }
    intros r [H | [H | [H | [H | [H | H]]]]].
    + exact (K Add _ r H).
    + exact (K Mul _ r H).
    + apply bool_guard in H. exact (K And _ r H).
    + apply bool_guard in H. exact (K Or _ r H).
    + exact (K Min _ r H).
    + exact (K Max _ r H).
  - intros r H. apply (reduction_built Add) in H as (i & p & Hi & _ & ->).
    now exists i.
  - intros r H. apply (reduction_built Mul) in H as (i & p & Hi & _ & ->).
    now exists i.
  - intros r H. apply bool_guard in H.
    apply (reduction_built And) in H as (i & p & Hi & _ & ->).
    now exists i.
  - intros r H. apply bool_guard in H.
    apply (reduction_built Or) in H as (i & p & Hi & _ & ->).
    now exists i.
Qed.

(** *** Powers of two *)

Lemma land_1_even (v : Z) : Z.land v 1 = 0 -> v = 2 * (v / 2).
Proof.
  intro H. change 1 with (Z.ones 1) in H.
  rewrite Z.land_ones in H by lia. change (2 ^ 1) with 2 in H.
  pose proof (Z.div_mod v 2 ltac:(lia)). lia.
Qed.

Lemma ConstPowerHelper_loop_pow2 (fuel : nat) :
  forall k s, 0 <= k < Z.of_nat fuel ->
    ConstPowerHelper_loop fuel (2 ^ k) s = Some (true, s + k).
Proof.
  induction fuel as [|fuel IH]; intros k s H; [lia|].
  cbn [ConstPowerHelper_loop].
  assert (P : 0 < 2 ^ k) by (apply Z.pow_pos_nonneg; lia).
  destruct (Z.eqb_spec (2 ^ k) 0); [lia|].
  destruct (Z.eq_dec k 0) as [-> | N].
  - cbn. now rewrite Z.add_0_r.
  - assert (E : 2 ^ k = 2 * 2 ^ (k - 1)).
    { rewrite <- Z.pow_succ_r by lia. f_equal. lia. }
    assert (L : Z.land (2 ^ k) 1 = 0).
    { change 1 with (Z.ones 1). rewrite Z.land_ones by lia.
      change (2 ^ 1) with 2. rewrite E, Z.mul_comm. apply Z.mod_mul. lia. }
    rewrite L. cbn [Z.eqb negb].
    rewrite Z.shiftr_div_pow2 by lia. change (2 ^ 1) with 2.
    replace (2 ^ k / 2) with (2 ^ (k - 1))
      by (rewrite E, Z.mul_comm, Z.div_mul; lia).
    rewrite IH by lia. do 2 f_equal. lia.
Qed.

Lemma ConstPowerHelper_loop_spec (fuel : nat) :
  forall v s, 0 < v < 2 ^ Z.of_nat fuel ->
    exists b s',
      ConstPowerHelper_loop fuel v s = Some (b, s') /\ s <= s' /\
      (b = true -> v = 2 ^ (s' - s)).
Proof.
  induction fuel as [|fuel IH]; intros v s H.
  { cbn in H. lia. }
  cbn [ConstPowerHelper_loop].
  destruct (Z.eqb_spec v 0); [lia|].
  destruct (Z.eqb_spec (Z.land v 1) 0) as [L | L]; cbn [negb].
  - apply land_1_even in L.
    rewrite Z.shiftr_div_pow2 by lia. change (2 ^ 1) with 2.
    assert (B : 0 < v / 2 < 2 ^ Z.of_nat fuel).
    { rewrite Nat2Z.inj_succ, Z.pow_succ_r in H by lia. lia. }
    destruct (IH (v / 2) (s + 1) B) as (b & s' & -> & Hs & Hb).
    exists b, s'. split; [reflexivity|]. split; [lia|].
    intro T. specialize (Hb T).
    replace (s' - s) with (Z.succ (s' - (s + 1))) by lia.
    rewrite Z.pow_succ_r by lia. lia.
  - exists (v =? 1), s. split; [reflexivity|]. split; [lia|].
    intro T. apply Z.eqb_eq in T. subst v. now rewrite Z.sub_diag.
Qed.

(** X15: [is_const_power_of_two_integer] decides powers of two on
    [int64] literals, and its loop ends on each of them: on the
    literal [2^k] it answers true and stores [k] in [shift]; when it
    answers true on a literal [v], then [v = 2^shift]; a literal that
    is zero or negative, and an expression that is no integer literal,
    are refused with [shift] left as it was. *)
Theorem const_power_of_two_decided (t : DataType) (s0 : Z) :
  (forall k, 0 <= k < 63 ->
     is_const_power_of_two_integer (IntImm t (2 ^ k)) s0 = Some (true, k)) /\
  (forall v k, - 2 ^ 63 <= v < 2 ^ 63 ->
     is_const_power_of_two_integer (IntImm t v) s0 = Some (true, k) ->
     0 <= k < 63 /\ v = 2 ^ k) /\
  (forall v, - 2 ^ 63 <= v < 2 ^ 63 ->
     exists b k, is_const_power_of_two_integer (IntImm t v) s0 = Some (b, k)) /\
  (forall v, v <= 0 ->
     is_const_power_of_two_integer (IntImm t v) s0 = Some (false, s0)) /\
  (forall x, as_IntImm x = None ->
     is_const_power_of_two_integer x s0 = Some (false, s0)).
Proof.
  assert (W : 2 ^ 63 < 2 ^ Z.of_nat 64) by reflexivity.
  conj_split.
  - intros k H. cbn [is_const_power_of_two_integer]. unfold ConstPowerHelper.
    assert (P : 0 < 2 ^ k) by (apply Z.pow_pos_nonneg; lia).
    destruct (Z.leb_spec (2 ^ k) 0); [lia|].
    rewrite ConstPowerHelper_loop_pow2 by lia. reflexivity.
  - intros v k H. cbn [is_const_power_of_two_integer]. unfold ConstPowerHelper.
    destruct (Z.leb_spec v 0); [discriminate|].
    destruct (ConstPowerHelper_loop_spec 64 v 0 ltac:(lia))
      as (b & s' & E & Hs & Hb).
    rewrite E. intro Q. injection Q as -> ->.
    specialize (Hb eq_refl). rewrite Z.sub_0_r in Hb.
    split; [|assumption]. split; [assumption|].
    apply (Z.pow_lt_mono_r_iff 2); lia.
  - intros v H. cbn [is_const_power_of_two_integer]. unfold ConstPowerHelper.
    destruct (Z.leb_spec v 0); [now exists false, s0|].
    destruct (ConstPowerHelper_loop_spec 64 v 0 ltac:(lia))
      as (b & s' & E & _).
    now exists b, s'.
  - intros v H. cbn [is_const_power_of_two_integer]. unfold ConstPowerHelper.
    destruct (Z.leb_spec v 0); [reflexivity | lia].
  - intros x H. destruct x; try reflexivity. discriminate.
Qed.


End Builder.

(* ================================================================= *)
(** ** The reference collaborators meet their contracts *)

Lemma ref_registered_is_custom (entries : list Ref.entry) (c : TypeCode) :
  Ref.GetTypeRegistered entries c = true -> is_custom c = true.
Proof. destruct c; simpl; congruence. Qed.



Lemma ref_MakeConstScalar_dtype (t : DataType) (v : Z) (e : PrimExpr) :
  Ref.MakeConstScalar t v = Ok e -> dtype e = t.
Proof.
  unfold Ref.MakeConstScalar.
  destruct (is_int t); [intro H; now injection H as <-|].
  destruct (is_uint t || is_bool t).
  { destruct (to_uint64 v <=? INT64_MAX); intro H; now injection H as <-. }
  destruct (is_float t || is_custom (code t)); [|discriminate].
  intro H. now injection H as <-.
Qed.

Lemma ref_MakeConstScalar_fp_dtype (t : DataType) (v : double) (e : PrimExpr) :
  Ref.MakeConstScalar_fp t v = Ok e -> dtype e = t.
Proof.
  unfold Ref.MakeConstScalar_fp.
  destruct (is_int t || is_uint t || is_bool t); [intro H; now injection H as <-|].
  destruct (is_float t || is_custom (code t)); [|discriminate].
  intro H. now injection H as <-.
Qed.

Lemma ref_make_const_dtype (t : DataType) (v : Z) (e : PrimExpr) :
  Ref.make_const t v = Ok e -> dtype e = t.
Proof.
  unfold Ref.make_const. destruct (lanes t =? 1).
  - apply ref_MakeConstScalar_dtype.
  - destruct (Ref.MakeConstScalar (element_of t) v) as [s|] eqn:E; [|discriminate].
    cbn [bind]. intro H. injection H as <-. cbn [dtype].
    rewrite (ref_MakeConstScalar_dtype _ _ _ E). apply with_lanes_element_of.
Qed.

Lemma ref_make_const_fp_dtype (t : DataType) (v : double) (e : PrimExpr) :
  Ref.make_const_fp t v = Ok e -> dtype e = t.
Proof.
  unfold Ref.make_const_fp. destruct (lanes t =? 1).
  - apply ref_MakeConstScalar_fp_dtype.
  - destruct (Ref.MakeConstScalar_fp (element_of t) v) as [s|] eqn:E; [|discriminate].
    cbn [bind]. intro H. injection H as <-. cbn [dtype].
    rewrite (ref_MakeConstScalar_fp_dtype _ _ _ E). apply with_lanes_element_of.
Qed.

(* ================================================================= *)
(** ** The properties at concrete inputs *)

Local Abbreviation ref_registered := (Ref.GetTypeRegistered Ref.two_entries).
Local Abbreviation ref_min_func := (Ref.GetMinFunc Ref.two_entries).
Local Abbreviation ref_cast := (cast Ref.make_const Ref.make_const_fp).
Local Abbreviation ref_match_types :=
  (BinaryOpMatchTypes ref_registered Ref.make_const Ref.make_const_fp).
Local Abbreviation ref_min :=
  (min ref_registered Ref.make_const Ref.make_const_fp Ref.TryConstFold
     Ref.is_pos_inf Ref.is_neg_inf).
Local Abbreviation ref_max :=
  (max ref_registered Ref.make_const Ref.make_const_fp Ref.TryConstFold
     Ref.is_pos_inf Ref.is_neg_inf).
Local Abbreviation ref_truncdiv :=
  (truncdiv ref_registered Ref.make_const Ref.make_const_fp Ref.TryConstFold).
Local Abbreviation ref_truncmod :=
  (truncmod ref_registered Ref.make_const Ref.make_const_fp Ref.TryConstFold).
Local Abbreviation ref_shl :=
  (operator_shl ref_registered Ref.make_const Ref.make_const_fp Ref.IsIndexType).
Local Abbreviation ref_shr :=
  (operator_shr ref_registered Ref.make_const Ref.make_const_fp Ref.IsIndexType).
Local Abbreviation ref_min_value := (min_value ref_registered ref_min_func).
Local Abbreviation ref_max_value := (max_value Ref.make_const).
Local Abbreviation ref_isnan := (isnan Ref.make_const Ref.make_const_fp).
Local Abbreviation ref_isinf :=
  (isinf ref_registered Ref.make_const Ref.make_const_fp Ref.make_zero
     Ref.TryConstFold Ref.TryConstFoldNot).
Local Abbreviation ref_isfinite :=
  (isfinite ref_registered Ref.make_const Ref.make_const_fp Ref.make_zero
     Ref.TryConstFold Ref.TryConstFoldNot).

Local Abbreviation i32 := (Int 32 1).
Local Abbreviation u32 := (UInt 32 1).
Local Abbreviation f32 := (Float 32 1).

(** C10 at an [int32] variable. *)
Lemma rounding_integer_operand_witness :
  floor (Var "i" i32) = Ok (Var "i" i32) /\
  ceil (Var "i" i32) = Ok (Var "i" i32) /\
  round (Var "i" i32) = Ok (Var "i" i32) /\
  trunc (Var "i" i32) = Ok (Var "i" i32).
Proof.
  exact (rounding_integer_operand_unchanged (Var "i" i32) eq_refl).
Defined.



(** C2 at an [int32] and a [uint32] variable. *)
Lemma match_types_mixed_signedness_witness :
  ref_match_types (Var "a" i32) (Var "b" u32) =
    Ok (Var "a" i32, Cast i32 (Var "b" u32)).
Proof.
  exact (proj1 (proj2 (proj2
           (match_types_mixed_signedness_is_signed ref_registered Ref.make_const
              Ref.make_const_fp (ref_registered_is_custom Ref.two_entries)
              (Var "a" i32) (Var "b" u32) eq_refl (or_introl eq_refl))))
           eq_refl eq_refl).
Defined.

(** C3 (amended) at two [float32] variables. *)
Lemma truncdiv_truncmod_witness :
  ref_truncdiv (Var "x" f32) (Var "y" f32) = Fatal /\
  ref_truncmod (Var "x" f32) (Var "y" f32) =
    Ok (BinaryOp Mod (Var "x" f32) (Var "y" f32)).
Proof.
  split.
  - exact (proj1 (truncdiv_asserts_kind_truncmod_does_not ref_registered
                    Ref.make_const Ref.make_const_fp Ref.TryConstFold
                    (Var "x" f32) (Var "y" f32))
             (or_introl eq_refl)).
  - exact (proj2 (proj2 (proj2 (proj2
             (truncdiv_asserts_kind_truncmod_does_not ref_registered
                Ref.make_const Ref.make_const_fp Ref.TryConstFold
                (Var "x" f32) (Var "y" f32)))))
             eq_refl).
Defined.

(** C3 as stated fails: [truncmod] of two [float32] variables does not
    abort, it builds the [Mod] node. *)
Lemma truncmod_accepts_float_operands :
  is_float (dtype (Var "x" f32)) = true /\
  ref_truncmod (Var "x" f32) (Var "y" f32) =
    Ok (BinaryOp Mod (Var "x" f32) (Var "y" f32)).
Proof. split; reflexivity. Qed.

(** C4 at the registry with codes 129 (callback) and 130 (none). *)
Lemma min_value_registry_witness :
  ref_min_value (Ref.custom129 16) =
    Ok (FloatImm (Ref.custom129 16) (dbl_neg DBL_MAX)) /\
  ref_min_value (mkDataType (kCustom 130) 16 1) = Fatal /\
  ref_min_value (mkDataType (kCustom 131) 16 1) = Fatal /\
  ref_max_value (Ref.custom129 16) = Fatal /\
  infinity (Ref.custom129 16) = Fatal.
Proof.
  split; [|split; [|split]].
  - exact (proj1 (min_value_consults_registry ref_registered ref_min_func
                    Ref.make_const (Ref.custom129 16))
             eq_refl eq_refl _ eq_refl).
  - exact (proj1 (proj2 (min_value_consults_registry ref_registered ref_min_func
                    Ref.make_const (mkDataType (kCustom 130) 16 1)))
             eq_refl eq_refl).
  - exact (proj1 (proj2 (proj2 (min_value_consults_registry ref_registered
                    ref_min_func Ref.make_const (mkDataType (kCustom 131) 16 1))))
             eq_refl eq_refl).
  - exact (proj2 (proj2 (proj2 (min_value_consults_registry ref_registered
                    ref_min_func Ref.make_const (Ref.custom129 16))))
             eq_refl).
Defined.

(** C5 at [Int8] and [UInt8]. *)
Lemma numeric_limit_boundaries_witness :
  ref_max_value (Int 8 1) = Ok (IntImm (Int 8 1) 127) /\
  ref_min_value (Int 8 1) = Ok (IntImm (Int 8 1) (-128)) /\
  ref_max_value (UInt 8 1) = Ok (IntImm (UInt 8 1) 255) /\
  ref_min_value (UInt 8 1) = Ok (IntImm (UInt 8 1) 0).
Proof.
  exact (proj1 (proj2 (proj2 (proj2 (proj2
           (numeric_limit_boundaries ref_registered ref_min_func Ref.make_const
              (ref_registered_is_custom Ref.two_entries))))))).
Defined.

(** C6 at an [int32] source over one axis. *)
Lemma reduction_identity_witness :
  min_reduction Ref.make_const (Var "s" i32) [mkIterVar "k" 0 16] [] =
    Ok (Reduce (mkCommReducer [Var "x" i32] [Var "y" i32]
                  [BinaryOp Min (Var "x" i32) (Var "y" i32)]
                  [IntImm i32 2147483647])
          [Var "s" i32] [mkIterVar "k" 0 16] (IntImm (Bool 1) 1) 0 []).
Proof.
  exact (proj1 (proj2 (proj2
           (reduction_identity_is_opposite_limit ref_registered ref_min_func
              Ref.make_const (Var "s" i32) [mkIterVar "k" 0 16] [])))
           (IntImm i32 2147483647) (IntImm (Bool 1) 1) eq_refl eq_refl).
Defined.

(** C7 (amended) at an [int32] variable: a literal 0 of its type,
    a literal out of range, and the unsigned literal 0. *)
Lemma shift_by_literal_witness :
  (ref_shl (Var "x" i32) (IntImm i32 0) = Ok (Var "x" i32) /\
   ref_shr (Var "x" i32) (IntImm i32 0) = Ok (Var "x" i32)) /\
  (ref_shl (Var "x" i32) (IntImm i32 32) = Fatal /\
   ref_shr (Var "x" i32) (IntImm i32 32) = Fatal) /\
  (ref_shl (Var "x" i32) (IntImm u32 0) =
     Ok (Call i32 "tir.shift_left" [Var "x" i32; Cast i32 (IntImm u32 0)]) /\
   ref_shr (Var "x" i32) (IntImm u32 0) =
     Ok (Call i32 "tir.shift_right" [Var "x" i32; Cast i32 (IntImm u32 0)])).
Proof.
  split; [|split].
  - exact (proj1 (proj2
             (shift_by_literal ref_registered Ref.make_const Ref.make_const_fp
                Ref.IsIndexType (ref_registered_is_custom Ref.two_entries)
                (Var "x" i32) (IntImm i32 0) eq_refl eq_refl))
             eq_refl eq_refl eq_refl eq_refl).
  - exact (proj1 (proj2 (proj2
             (shift_by_literal ref_registered Ref.make_const Ref.make_const_fp
                Ref.IsIndexType (ref_registered_is_custom Ref.two_entries)
                (Var "x" i32) (IntImm i32 32) eq_refl eq_refl)))
             (Var "x" i32) (IntImm i32 32) i32 32 eq_refl eq_refl eq_refl eq_refl
             (or_intror (Z.le_refl 32))).
  - exact (proj2 (proj2 (proj2
             (shift_by_literal ref_registered Ref.make_const Ref.make_const_fp
                Ref.IsIndexType (ref_registered_is_custom Ref.two_entries)
                (Var "x" i32) (IntImm u32 0) eq_refl eq_refl)))
             u32 0 eq_refl eq_refl eq_refl eq_refl).
Defined.

(** C7 as stated fails: an [int8] variable shifted by the [int32]
    literal 0 does not come back as itself but wrapped in the cast
    that promotion introduced. *)
Lemma shift_zero_returns_promoted_operand :
  ref_shl (Var "x" (Int 8 1)) (IntImm i32 0) = Ok (Cast i32 (Var "x" (Int 8 1))) /\
  ref_shr (Var "x" (Int 8 1)) (IntImm i32 0) = Ok (Cast i32 (Var "x" (Int 8 1))).
Proof. split; reflexivity. Qed.

(** With the index-type test of the reference instantiation, a
    [uint32] variable shifted by a [uint32] literal 0 is not folded
    at all. *)
Lemma shift_zero_on_non_index_type :
  ref_shl (Var "x" u32) (IntImm u32 0) =
    Ok (Call u32 "tir.shift_left" [Var "x" u32; IntImm u32 0]).
Proof. reflexivity. Qed.

(** C8 at a vector target and at a literal. *)
Lemma cast_idempotent_witness :
  ((y <- ref_cast (Float 16 4) (Var "v" f32) ;; ref_cast (Float 16 4) y) =
     ref_cast (Float 16 4) (Var "v" f32) /\
   ref_cast (Float 16 4) (Var "v" f32) =
     Ok (Broadcast (Cast (Float 16 1) (Var "v" f32)) 4)) /\
  ((y <- ref_cast (Int 64 1) (IntImm i32 3) ;; ref_cast (Int 64 1) y) =
     ref_cast (Int 64 1) (IntImm i32 3) /\
   ref_cast (Int 64 1) (IntImm i32 3) = Ok (IntImm (Int 64 1) 3)).
Proof.
  split; (split; [|reflexivity]).
  - exact (proj1 (cast_idempotent Ref.make_const Ref.make_const_fp
                    ref_make_const_dtype ref_make_const_fp_dtype
                    (Float 16 4) (Var "v" f32))).
  - exact (proj1 (cast_idempotent Ref.make_const Ref.make_const_fp
                    ref_make_const_dtype ref_make_const_fp_dtype
                    (Int 64 1) (IntImm i32 3))).
Defined.

(** C9 (amended) at an [int32] variable, a four-lane [int32]
    variable and a [float32] variable. *)
Lemma classification_builders_witness :
  ((ref_isnan (Var "i" i32) = Ok (IntImm (Bool 1) 0) /\
    ref_isinf (Var "i" i32) = Ok (IntImm (Bool 1) 0)) /\
   ref_isfinite (Var "i" i32) = Ok (IntImm (Bool 1) 1)) /\
  ref_isfinite (Var "v" (Int 32 4)) =
    Ok (BinaryOp And (Not (Broadcast (IntImm (Bool 1) 0) 4))
                     (Not (Broadcast (IntImm (Bool 1) 0) 4))) /\
  (ref_isnan (Var "f" f32) = Ok (Call (Bool 1) "tir.isnan" [Var "f" f32]) /\
   ref_isinf (Var "f" f32) =
     Ok (BinaryOp And
           (BinaryOp EQ (Call f32 "tir.fabs" [Var "f" f32])
                        (FloatImm f32 dbl_infinity))
           (Not (Call (Bool 1) "tir.isnan" [Var "f" f32])))).
Proof.
  split; [split | split].
  - exact (proj1 (classification_builders ref_registered Ref.make_const
                    Ref.make_const_fp Ref.make_zero Ref.TryConstFold
                    Ref.TryConstFoldNot ref_make_const_dtype (Var "i" i32))
             eq_refl).
  - exact (proj1 (proj2 (classification_builders ref_registered Ref.make_const
                    Ref.make_const_fp Ref.make_zero Ref.TryConstFold
                    Ref.TryConstFoldNot ref_make_const_dtype (Var "i" i32)))
             eq_refl (IntImm (Bool 1) 0) (IntImm (Bool 1) 1)
             eq_refl eq_refl eq_refl eq_refl).
  - exact (proj1 (proj2 (proj2 (classification_builders ref_registered
                    Ref.make_const Ref.make_const_fp Ref.make_zero
                    Ref.TryConstFold Ref.TryConstFoldNot ref_make_const_dtype
                    (Var "v" (Int 32 4)))))
             eq_refl (Broadcast (IntImm (Bool 1) 0) 4)
             eq_refl eq_refl eq_refl).
  - pose proof (proj1 (proj2 (proj2 (proj2
                  (classification_builders ref_registered Ref.make_const
                     Ref.make_const_fp Ref.make_zero Ref.TryConstFold
                     Ref.TryConstFoldNot ref_make_const_dtype (Var "f" f32)))))
                eq_refl eq_refl eq_refl (or_introl eq_refl)
                eq_refl eq_refl eq_refl) as H.
    exact (conj (proj1 H) (proj1 (proj2 (proj2 (proj2 H))))).
Defined.

(** C9 as stated fails: on a four-lane [int32] variable [isfinite]
    does not return the constant true but the unfolded conjunction
    of two negated broadcasts of false. *)
Lemma isfinite_on_vector_is_not_folded :
  is_int (dtype (Var "v" (Int 32 4))) = true /\
  ref_isfinite (Var "v" (Int 32 4)) =
    Ok (BinaryOp And (Not (Broadcast (IntImm (Bool 1) 0) 4))
                     (Not (Broadcast (IntImm (Bool 1) 0) 4))) /\
  Ref.make_const (Bool 4) (Z.b2z true) = Ok (Broadcast (IntImm (Bool 1) 1) 4).
Proof. split; [|split]; reflexivity. Qed.

(* ================================================================= *)
(** ** The further properties at concrete inputs *)

Local Abbreviation ref_promote :=
  (promote_fold_build ref_registered Ref.make_const Ref.make_const_fp
     Ref.TryConstFold).
Local Abbreviation ref_pow :=
  (pow ref_registered Ref.make_const Ref.make_const_fp).
Local Abbreviation ref_fmod :=
  (fmod ref_registered Ref.make_const Ref.make_const_fp).
Local Abbreviation ref_floordiv :=
  (floordiv ref_registered Ref.make_const Ref.make_const_fp Ref.TryConstFold).
Local Abbreviation ref_floormod :=
  (floormod ref_registered Ref.make_const Ref.make_const_fp Ref.TryConstFold).
Local Abbreviation ref_indexdiv :=
  (indexdiv ref_registered Ref.make_const Ref.make_const_fp Ref.TryConstFold).
Local Abbreviation ref_indexmod :=
  (indexmod ref_registered Ref.make_const Ref.make_const_fp Ref.TryConstFold).
Local Abbreviation ref_bitand :=
  (operator_bitand ref_registered Ref.make_const Ref.make_const_fp
     Ref.IsIndexType).
Local Abbreviation ref_bitor :=
  (operator_bitor ref_registered Ref.make_const Ref.make_const_fp
     Ref.IsIndexType).
Local Abbreviation ref_bitxor :=
  (operator_bitxor ref_registered Ref.make_const Ref.make_const_fp
     Ref.IsIndexType).
Local Abbreviation ref_if_then_else :=
  (if_then_else ref_registered Ref.make_const Ref.make_const_fp).
Local Abbreviation ref_neg :=
  (operator_neg ref_registered Ref.make_const Ref.make_const_fp Ref.make_zero
     Ref.TryConstFold).
Local Abbreviation ref_abs :=
  (abs ref_registered Ref.make_const Ref.make_const_fp Ref.make_zero
     Ref.TryConstFold).
Local Abbreviation i8 := (Int 8 1).
Local Abbreviation f64 := (Float 64 1).

(** X1 at an [int32] and a [float32] variable. *)
Lemma match_types_results_agree_witness :
  ref_match_types (Var "i" i32) (Var "f" f32) =
    Ok (Cast f32 (Var "i" i32), Var "f" f32) /\
  dtype (Cast f32 (Var "i" i32)) = dtype (Var "f" f32).
Proof.
  split; [reflexivity|].
  exact (proj1 (match_types_results_agree ref_registered Ref.make_const
                  Ref.make_const_fp ref_make_const_dtype ref_make_const_fp_dtype
                  (Var "i" i32) (Var "f" f32))
           _ _ eq_refl).
Defined.

(** X2 at a [float32] and a [float64] variable. *)
Lemma match_types_float_widths_witness :
  ref_match_types (Var "f" f32) (Var "d" f64) = Fatal /\
  (forall op, ref_promote op (Var "f" f32) (Var "d" f64) = Fatal) /\
  ref_pow (Var "f" f32) (Var "d" f64) = Fatal /\
  ref_fmod (Var "f" f32) (Var "d" f64) = Fatal.
Proof.
  apply (match_types_float_widths_abort ref_registered Ref.make_const
           Ref.make_const_fp Ref.TryConstFold (Var "f" f32) (Var "d" f64));
    [reflexivity | reflexivity | discriminate].
Defined.

(** X3 at an [int8] and an [int32] variable, in both orders. *)
Lemma match_types_casts_one_side_witness :
  ref_match_types (Var "a" i8) (Var "b" i32) =
    Ok (Cast i32 (Var "a" i8), Var "b" i32) /\
  ref_match_types (Var "b" i32) (Var "a" i8) =
    Ok (Var "b" i32, Cast i32 (Var "a" i8)).
Proof.
  split.
  - apply (proj1 (proj1 (match_types_casts_one_side ref_registered
                           Ref.make_const Ref.make_const_fp
                           (ref_registered_is_custom Ref.two_entries)
                           (Var "a" i8) (Var "b" i32) eq_refl) eq_refl)).
    reflexivity.
  - apply (proj2 (proj1 (match_types_casts_one_side ref_registered
                           Ref.make_const Ref.make_const_fp
                           (ref_registered_is_custom Ref.two_entries)
                           (Var "b" i32) (Var "a" i8) eq_refl) eq_refl)).
    reflexivity.
Defined.

(** X4 at the sum of an [int8] and an [int32] variable. *)
Lemma promoted_node_witness :
  exists a' b',
    ref_match_types (Var "a" i8) (Var "b" i32) = Ok (a', b') /\
    dtype a' = dtype b' /\
    (forall f, Ref.TryConstFold Add a' b' = Some f ->
       BinaryOp Add (Cast i32 (Var "a" i8)) (Var "b" i32) = f) /\
    (Ref.TryConstFold Add a' b' = None ->
     BinaryOp Add (Cast i32 (Var "a" i8)) (Var "b" i32) = BinaryOp Add a' b' /\
     dtype (BinaryOp Add (Cast i32 (Var "a" i8)) (Var "b" i32)) =
       if is_comparison Add then Bool (lanes (dtype a')) else dtype a').
Proof.
  exact (promoted_node_is_well_typed ref_registered Ref.make_const
           Ref.make_const_fp Ref.TryConstFold ref_make_const_dtype
           ref_make_const_fp_dtype Add (Var "a" i8) (Var "b" i32)
           (BinaryOp Add (Cast i32 (Var "a" i8)) (Var "b" i32)) eq_refl).
Defined.

(** X5 at an [int32] base: refused with an [int32] exponent, cast
    with a [float32] one. *)
Lemma pow_fmod_witness :
  (ref_pow (Var "x" i32) (Var "n" i32) = Fatal /\
   ref_fmod (Var "x" i32) (Var "n" i32) = Fatal) /\
  (ref_pow (Var "x" i32) (Var "y" f32) =
     Ok (Call f32 "tir.pow" [Cast f32 (Var "x" i32); Var "y" f32]) /\
   ref_fmod (Var "x" i32) (Var "y" f32) =
     Ok (Call f32 "tir.fmod" [Cast f32 (Var "x" i32); Var "y" f32])).
Proof.
  split.
  - exact (proj1 (pow_fmod_check_after_promotion ref_registered Ref.make_const
                    Ref.make_const_fp ref_make_const_dtype
                    ref_make_const_fp_dtype (Var "x" i32) (Var "n" i32))
             eq_refl eq_refl).
  - exact (proj1 (proj2 (pow_fmod_check_after_promotion ref_registered
                    Ref.make_const Ref.make_const_fp ref_make_const_dtype
                    ref_make_const_fp_dtype (Var "x" i32) (Var "y" f32)))
             eq_refl eq_refl eq_refl eq_refl).
Defined.

(** X6 at a [float32] left operand. *)
Lemma integer_builders_witness :
  ref_floordiv (Var "x" f32) (Var "n" i32) = Fatal /\
  ref_floormod (Var "x" f32) (Var "n" i32) = Fatal /\
  ref_indexdiv (Var "x" f32) (Var "n" i32) = Fatal /\
  ref_indexmod (Var "x" f32) (Var "n" i32) = Fatal /\
  ref_shl (Var "x" f32) (Var "n" i32) = Fatal /\
  ref_shr (Var "x" f32) (Var "n" i32) = Fatal /\
  ref_bitand (Var "x" f32) (Var "n" i32) = Fatal /\
  ref_bitor (Var "x" f32) (Var "n" i32) = Fatal /\
  ref_bitxor (Var "x" f32) (Var "n" i32) = Fatal.
Proof.
  exact (proj1 (integer_builders_stay_integer ref_registered Ref.make_const
                  Ref.make_const_fp Ref.TryConstFold Ref.IsIndexType
                  (ref_registered_is_custom Ref.two_entries)
                  ref_make_const_dtype ref_make_const_fp_dtype
                  (Var "x" f32) (Var "n" i32))
           (or_introl eq_refl)).
Defined.

(** X7 at a true literal condition over an [int8] and an [int32]
    branch. *)
Lemma if_then_else_witness :
  ref_if_then_else (IntImm (Bool 1) 1) (Var "a" i8) (Var "b" i32) =
    Ok (Cast i32 (Var "a" i8)) /\
  dtype (Cast i32 (Var "a" i8)) = dtype (Var "b" i32).
Proof.
  exact (proj1 (proj2 (proj2
           (if_then_else_literal_condition ref_registered Ref.make_const
              Ref.make_const_fp ref_make_const_dtype ref_make_const_fp_dtype
              (IntImm (Bool 1) 1) (Var "a" i8) (Var "b" i32))))
           1 (Cast i32 (Var "a" i8)) (Var "b" i32) eq_refl eq_refl).
Defined.

(** X8 at an [int32] literal reinterpreted as [float32]. *)
Lemma reinterpret_witness :
  reinterpret f32 (IntImm i32 1) = Ok (Call f32 "tir.reinterpret" [IntImm i32 1]).
Proof.
  apply (proj1 (reinterpret_wraps_once f32 (IntImm i32 1))).
  discriminate.
Defined.

(** X9 at an eight-lane variable cast to four lanes. *)
Lemma cast_symbolic_witness :
  ref_cast (Int 32 4) (Var "v" (Int 32 8)) = Fatal.
Proof.
  apply (proj1 (cast_symbolic_operand Ref.make_const Ref.make_const_fp
                  (Int 32 4) (Var "v" (Int 32 8)) eq_refl)).
  repeat split; discriminate.
Defined.

(** X10 at the literal 5. *)
Lemma operator_neg_witness :
  (y <- ref_neg (IntImm i32 5) ;; ref_neg y) = Ok (IntImm i32 5).
Proof.
  apply (proj1 (operator_neg_literal_involution ref_registered Ref.make_const
                  Ref.make_const_fp Ref.make_zero Ref.TryConstFold i32
                  eq_refl) eq_refl).
  split; [discriminate | reflexivity].
Defined.

(** X11 at the literal -7. *)
Lemma abs_witness :
  ref_abs (IntImm i32 (-7)) = Ok (IntImm i32 7).
Proof.
  apply (proj1 (abs_on_literals ref_registered Ref.make_const
                  Ref.make_const_fp Ref.make_zero Ref.TryConstFold i32)
           eq_refl (-7)).
  split; reflexivity.
Defined.

(** X12 at the literal -3 shifted by 4. *)
Lemma shift_literals_witness :
  ref_shr (IntImm i32 (-3)) (IntImm i32 4) = Ok (IntImm i32 (-1)) /\
  ref_shl (IntImm i32 (-3)) (IntImm i32 4) = Ok (IntImm i32 (-48)) /\
  (y <- ref_shl (IntImm i32 (-3)) (IntImm i32 4) ;; ref_shr y (IntImm i32 4)) =
    Ok (IntImm i32 (-3)).
Proof.
  assert (K : 0 <= 4 < bits i32) by (split; [discriminate | reflexivity]).
  split.
  - exact (proj1 (shift_literals_round_trip ref_registered Ref.make_const
                    Ref.make_const_fp Ref.IsIndexType i32 (-3) 4
                    eq_refl eq_refl K)).
  - apply (proj2 (shift_literals_round_trip ref_registered Ref.make_const
                    Ref.make_const_fp Ref.IsIndexType i32 (-3) 4
                    eq_refl eq_refl K)).
    split; [discriminate | reflexivity].
Defined.

(** X13 at the literals 12 and 10. *)
Lemma bitwise_literals_witness :
  ref_bitand (IntImm i32 12) (IntImm i32 10) = Ok (IntImm i32 8) /\
  ref_bitor (IntImm i32 12) (IntImm i32 10) = Ok (IntImm i32 14) /\
  ref_bitxor (IntImm i32 12) (IntImm i32 10) = Ok (IntImm i32 6).
Proof.
  exact (proj1 (proj1 (bitwise_literals_fold ref_registered Ref.make_const
                         Ref.make_const_fp Ref.IsIndexType i32 12 10 eq_refl)
                  eq_refl)).
Defined.

(** X14 at an [int32] source, which [all] and [any] refuse. *)
Lemma reductions_witness :
  all_reduction Ref.make_const (Var "s" i32) [mkIterVar "k" 0 16] [] = Fatal /\
  any_reduction Ref.make_const (Var "s" i32) [mkIterVar "k" 0 16] [] = Fatal.
Proof.
  exact (proj1 (reductions_reduce_one_value ref_registered ref_min_func
                  Ref.make_const Ref.make_zero (Var "s" i32)
                  [mkIterVar "k" 0 16] [])
           eq_refl).
Defined.

(** X15 at the literal 1024. *)
Lemma const_power_of_two_witness :
  is_const_power_of_two_integer (IntImm i32 1024) 7 = Some (true, 10).
Proof.
  apply (proj1 (const_power_of_two_decided i32 7) 10).
  split; [discriminate | reflexivity].
Defined.
